(** * Data-tag validator of food-app-qa: a shallow embedding and its properties

    The Python class [TagValidator] (src/data_tags/tag_validator.py) loads a
    JSON classification document once and answers read-only queries on it.
    The code is dynamically typed: every query walks nested dictionaries with
    [d[k]], [d.get(k, default)], [d.items()], [k in d] and [x >= n], and each of
    these raises a Python exception on a value of the wrong type.  The
    embedding keeps that: values are JSON values as [json.load] builds them,
    and every method returns in an error monad whose failures are the Python
    exceptions the interpreter would raise. *)

From Stdlib Require Import List String Ascii ZArith QArith Bool Lia.
Import ListNotations.
Open Scope string_scope.
Open Scope Z_scope.
#[local] Set Warnings "-register-all".

(** ** Values built by [json.load] *)

(** A Python [float].  Only comparison with an [int] and truthiness are ever
    used by the validator; both are exact in CPython, so a finite float is
    kept as the rational it denotes. *)
Inductive pyfloat : Type :=
| FNan
| FInf (negative : bool)
| FFin (q : Q).

(** [dict] keeps insertion order; its keys are pairwise distinct
    (see [wf_json]). *)
Inductive json : Type :=
| JNull
| JBool (b : bool)
| JInt (n : Z)
| JFloat (x : pyfloat)
| JStr (s : string)
| JArr (items : list json)
| JObj (entries : list (string * json)).

Definition pydict : Type := list (string * json).

(** ** Exceptions and the error monad *)

Inductive exn : Type :=
| FileNotFoundError
| PermissionError
| JSONDecodeError
| KeyError
| TypeError
| AttributeError.

(** The classes an exception is an instance of, most specific first. *)
Definition exn_mro (e : exn) : list string :=
  match e with
  | FileNotFoundError => ["FileNotFoundError"; "OSError"; "Exception"]
  | PermissionError => ["PermissionError"; "OSError"; "Exception"]
  | JSONDecodeError => ["JSONDecodeError"; "ValueError"; "Exception"]
  | KeyError => ["KeyError"; "LookupError"; "Exception"]
  | TypeError => ["TypeError"; "Exception"]
  | AttributeError => ["AttributeError"; "Exception"]
  end.

Inductive result (A : Type) : Type :=
| Ok (a : A)
| Raise (e : exn).
Arguments Ok {A} a.
Arguments Raise {A} e.

Definition bind {A B : Type} (r : result A) (k : A -> result B) : result B :=
  match r with
  | Ok a => k a
  | Raise e => Raise e
  end.

Notation "x <- r ;; k" := (bind r (fun x => k))
  (at level 61, r at next level, right associativity).

(** [raises r cls]: evaluating [r] raises an exception that [except cls]
    would catch. *)
Definition raises {A : Type} (r : result A) (cls : string) : Prop :=
  exists e, r = Raise e /\ In cls (exn_mro e).

Definition returns {A : Type} (r : result A) : Prop :=
  exists a, r = Ok a.

(** ** The Python operations the validator uses *)

Module Py.

(** First binding of [k]; a [dict] has at most one. *)
Fixpoint lookup (k : string) (d : pydict) : option json :=
  match d with
  | [] => None
  | (k', v) :: d' => if String.eqb k k' then Some v else lookup k d'
  end.

(** [k in d] for a dict [d]. *)
Definition contains (d : pydict) (k : string) : bool :=
  match lookup k d with
  | Some _ => true
  | None => false
  end.

(** [o[k]] with a string key. *)
Definition getitem (o : json) (k : string) : result json :=
  match o with
  | JObj d =>
      match lookup k d with
      | Some v => Ok v
      | None => Raise KeyError
      end
  | _ => Raise TypeError
  end.

(** [o.get(k, dflt)]: only [dict] has the attribute [get]. *)
Definition get (o : json) (k : string) (dflt : json) : result json :=
  match o with
  | JObj d =>
      match lookup k d with
      | Some v => Ok v
      | None => Ok dflt
      end
  | _ => Raise AttributeError
  end.

(** [o.items()]. *)
Definition items (o : json) : result pydict :=
  match o with
  | JObj d => Ok d
  | _ => Raise AttributeError
  end.

(** [x >= n] for a float [x] and an int [n]; false on NaN. *)
Definition float_ge (x : pyfloat) (n : Z) : bool :=
  match x with
  | FNan => false
  | FInf negative => negb negative
  | FFin q => Qle_bool (inject_Z n) q
  end.

(** [o >= n] for an int [n]; [bool] is a subclass of [int]. *)
Definition ge (o : json) (n : Z) : result bool :=
  match o with
  | JInt m => Ok (n <=? m)
  | JBool b => Ok (n <=? Z.b2z b)
  | JFloat x => Ok (float_ge x n)
  | _ => Raise TypeError
  end.

(** Truth value of [o] in an [if]. *)
Definition truthy (o : json) : bool :=
  match o with
  | JNull => false
  | JBool b => b
  | JInt n => negb (n =? 0)
  | JFloat FNan => true
  | JFloat (FInf _) => true
  | JFloat (FFin q) => negb (Qeq_bool q 0)
  | JStr s => negb (String.eqb s "")
  | JArr l => match l with [] => false | _ => true end
  | JObj d => match d with [] => false | _ => true end
  end.

End Py.

(** ** The file system as [open] and [json.load] see it *)

Inductive source : Type :=
| NoSuchFile                (* open raises FileNotFoundError *)
| NotReadable               (* open raises PermissionError *)
| NotJSON                   (* json.load raises JSONDecodeError *)
| Loads (doc : json).       (* json.load returns doc *)

Definition filesystem : Type := string -> source.

(** ** class TagValidator *)

Record TagValidator : Type := { schema : json }.

Definition default_schema_path : string := "data_tags/tag_schema.json".

(** [TagValidator(schema_path)]:
    [with open(schema_path, 'r') as f: self.schema = json.load(f)] *)
Definition __init__ (fs : filesystem) (schema_path : option string)
  : result TagValidator :=
  let path := match schema_path with
              | Some p => p
              | None => default_schema_path
              end in
  match fs path with
  | NoSuchFile => Raise FileNotFoundError
  | NotReadable => Raise PermissionError
  | NotJSON => Raise JSONDecodeError
  | Loads doc => Ok {| schema := doc |}
  end.

(** [return self.schema['services'].get(service_name, {})] *)
Definition get_service_schema (self : TagValidator) (service_name : string)
  : result json :=
  services <- Py.getitem (schema self) "services" ;;
  Py.get services service_name (JObj []).

(** [service = self.get_service_schema(service_name)]
    [return service.get('fields', {}).get(field_name, {})] *)
Definition get_field_tags (self : TagValidator)
  (service_name field_name : string) : result json :=
  service <- get_service_schema self service_name ;;
  fields <- Py.get service "fields" (JObj []) ;;
  Py.get fields field_name (JObj []).

(** The comprehension
    [[field_name for field_name, field_info in ITEMS
      if field_info.get('required', False)]]. *)
Fixpoint required_names (its : pydict) : result (list string) :=
  match its with
  | [] => Ok []
  | (field_name, field_info) :: rest =>
      r <- Py.get field_info "required" (JBool false) ;;
      names <- required_names rest ;;
      Ok (if Py.truthy r then field_name :: names else names)
  end.

(** The loop
    [for field in required_fields:
       if field not in data: missing_fields.append(field)],
    with [missing_fields] as accumulator. *)
Fixpoint collect_missing (required_fields : list string) (data : pydict)
  (missing_fields : list string) : list string :=
  match required_fields with
  | [] => missing_fields
  | field :: rest =>
      if negb (Py.contains data field)
      then collect_missing rest data (missing_fields ++ [field])
      else collect_missing rest data missing_fields
  end.

Definition validate_field_exists (self : TagValidator) (service_name : string)
  (data : pydict) : result (list string) :=
  service <- get_service_schema self service_name ;;
  fields <- Py.get service "fields" (JObj []) ;;
  its <- Py.items fields ;;
  required_fields <- required_names its ;;
  Ok (collect_missing required_fields data []).

(** The loop
    [for field_name, field_info in ITEMS:
       if field_info.get('piiLevel', 0) >= min_level:
         sensitive.append(field_name)],
    with [sensitive] as accumulator. *)
Fixpoint collect_sensitive (its : pydict) (min_level : Z)
  (sensitive : list string) : result (list string) :=
  match its with
  | [] => Ok sensitive
  | (field_name, field_info) :: rest =>
      level <- Py.get field_info "piiLevel" (JInt 0) ;;
      hit <- Py.ge level min_level ;;
      collect_sensitive rest min_level
        (if hit then sensitive ++ [field_name] else sensitive)
  end.

Definition default_min_level : Z := 2.

(** [def get_sensitive_fields(self, service_name, min_level=2)];
    [None] is a call that leaves [min_level] out. *)
Definition get_sensitive_fields (self : TagValidator) (service_name : string)
  (min_level : option Z) : result (list string) :=
  let min_level := match min_level with
                   | Some m => m
                   | None => default_min_level
                   end in
  service <- get_service_schema self service_name ;;
  fields <- Py.get service "fields" (JObj []) ;;
  its <- Py.items fields ;;
  collect_sensitive its min_level [].

(** [tags = self.get_field_tags(service_name, field_name)]
    [return tags.get('piiLevel', 0) >= 3] *)
Definition should_field_be_encrypted (self : TagValidator)
  (service_name field_name : string) : result bool :=
  tags <- get_field_tags self service_name field_name ;;
  level <- Py.get tags "piiLevel" (JInt 0) ;;
  Py.ge level 3.

(** [tags = self.get_field_tags(service_name, field_name)]
    [return tags.get('retention', 'RETAIN_INDEFINITE')] *)
Definition get_retention_policy (self : TagValidator)
  (service_name field_name : string) : result json :=
  tags <- get_field_tags self service_name field_name ;;
  Py.get tags "retention" (JStr "RETAIN_INDEFINITE").

(** ** The classification document as data

    What the data model calls the service descriptors, the field mappings and
    the three attributes of a field classification that the queries read,
    taken from the document itself. *)

Definition services_of (doc : json) : pydict :=
  match doc with
  | JObj d =>
      match Py.lookup "services" d with
      | Some (JObj svcs) => svcs
      | _ => []
      end
  | _ => []
  end.

(** The field mapping of a service, in declaration order; empty for a service
    the document does not declare or one without a [fields] entry. *)
Definition fields_of (doc : json) (service_name : string) : pydict :=
  match Py.lookup service_name (services_of doc) with
  | Some (JObj svc) =>
      match Py.lookup "fields" svc with
      | Some (JObj fields) => fields
      | _ => []
      end
  | _ => []
  end.

Definition field_entry (info : json) (key : string) : option json :=
  match info with
  | JObj d => Py.lookup key d
  | _ => None
  end.

Definition pii_level (info : json) : Z :=
  match field_entry info "piiLevel" with
  | Some (JInt n) => n
  | _ => 0
  end.

Definition is_required (info : json) : bool :=
  match field_entry info "required" with
  | Some (JBool b) => b
  | _ => false
  end.

Definition retention_of (info : json) : string :=
  match field_entry info "retention" with
  | Some (JStr r) => r
  | _ => "RETAIN_INDEFINITE"
  end.

(** *** The document format

    A field classification is an object whose optional [piiLevel] is an
    integer, [retention] a string and [required] a boolean; a service
    descriptor is an object whose optional [fields] is an object of field
    classifications; the document is an object whose [services] is an object
    of service descriptors. *)

Definition field_ok (info : json) : bool :=
  match info with
  | JObj d =>
      match Py.lookup "piiLevel" d with
      | None | Some (JInt _) => true
      | _ => false
      end
      && match Py.lookup "retention" d with
         | None | Some (JStr _) => true
         | _ => false
         end
      && match Py.lookup "required" d with
         | None | Some (JBool _) => true
         | _ => false
         end
  | _ => false
  end.

Definition service_ok (svc : json) : bool :=
  match svc with
  | JObj d =>
      match Py.lookup "fields" d with
      | None => true
      | Some (JObj fields) => forallb (fun kv => field_ok (snd kv)) fields
      | Some _ => false
      end
  | _ => false
  end.

Definition schema_ok (doc : json) : bool :=
  match doc with
  | JObj d =>
      match Py.lookup "services" d with
      | Some (JObj svcs) => forallb (fun kv => service_ok (snd kv)) svcs
      | _ => false
      end
  | _ => false
  end.

(** The keys of a Python [dict] are pairwise distinct. *)
Fixpoint distinct (keys : list string) : bool :=
  match keys with
  | [] => true
  | k :: rest => negb (existsb (String.eqb k) rest) && distinct rest
  end.

(** [wf_json j]: every object inside [j] is a [dict], that is, no key occurs
    twice in it. *)
Fixpoint wf_json (j : json) : bool :=
  match j with
  | JArr l => forallb wf_json l
  | JObj d =>
      distinct (map fst d)
      && forallb (fun kv => match kv with (_, v) => wf_json v end) d
  | _ => true
  end.

(** The data model's invariant on levels: every declared [piiLevel] is a
    non-negative integer. *)
Definition levels_nonneg (doc : json) : bool :=
  forallb
    (fun svc => forallb (fun kv => 0 <=? pii_level (snd kv))
                  (fields_of doc (fst svc)))
    (services_of doc).

(** *** What the claims say the queries compute *)

Definition required_fields_of (doc : json) (service_name : string)
  : list string :=
  map fst (filter (fun kv => is_required (snd kv))
             (fields_of doc service_name)).

Definition fields_at_least (doc : json) (service_name : string) (level : Z)
  : list string :=
  map fst (filter (fun kv => level <=? pii_level (snd kv))
             (fields_of doc service_name)).

(** ** A concrete document: the scenario of the specification *)

Definition password_tags : json :=
  JObj [("piiLevel", JInt 4); ("retention", JStr "RETAIN_7_YEARS");
        ("required", JBool true)].

Definition city_tags : json :=
  JObj [("piiLevel", JInt 1); ("required", JBool false)].

Definition scenario_doc : json :=
  JObj [("services",
         JObj [("userinfo",
                JObj [("fields",
                       JObj [("userPassword", password_tags);
                             ("city", city_tags)])])])].

Definition scenario : TagValidator := {| schema := scenario_doc |}.

(** A document of the expected format in which one level is negative. *)
Definition negative_level_doc : json :=
  JObj [("services",
         JObj [("ledger",
                JObj [("fields",
                       JObj [("adjustment", JObj [("piiLevel", JInt (-1))]);
                             ("memo", JObj [])])])])].

(** The document [{"services": "not-an-object"}]. *)
Definition scalar_services_doc : json :=
  JObj [("services", JStr "not-an-object")].

(** A file system with one well-formed schema, one schema whose [services]
    is a scalar, one empty object, and nothing else. *)
Definition disk : filesystem :=
  fun path =>
    if String.eqb path default_schema_path then Loads scenario_doc
    else if String.eqb path "bad_services.json" then Loads scalar_services_doc
    else if String.eqb path "empty_object.json" then Loads (JObj [])
    else NoSuchFile.

(** ** The walk shared by the two scans

    [validate_field_exists] and [get_sensitive_fields] start with the same
    three steps,
    [service = self.get_service_schema(service_name)] and then
    [service.get('fields', {}).items()]. *)
Definition field_items (self : TagValidator) (service_name : string)
  : result pydict :=
  service <- get_service_schema self service_name ;;
  fields <- Py.get service "fields" (JObj []) ;;
  Py.items fields.

(** What each scan needs of a field record: [.get] needs a dict, [>=] with
    an int needs a number. *)
Definition is_object (v : json) : bool :=
  match v with
  | JObj _ => true
  | _ => false
  end.

Definition is_number (v : json) : bool :=
  match v with
  | JInt _ | JBool _ | JFloat _ => true
  | _ => false
  end.

Definition level_readable (info : json) : bool :=
  match info with
  | JObj d =>
      match Py.lookup "piiLevel" d with
      | None => true
      | Some level => is_number level
      end
  | _ => false
  end.

(** The two tests the scans make on one field record, as booleans; false
    where the test raises. *)
Definition reaches (min_level : Z) (info : json) : bool :=
  match Py.get info "piiLevel" (JInt 0) with
  | Ok level =>
      match Py.ge level min_level with
      | Ok hit => hit
      | Raise _ => false
      end
  | Raise _ => false
  end.

Definition marked_required (info : json) : bool :=
  match Py.get info "required" (JBool false) with
  | Ok r => Py.truthy r
  | Raise _ => false
  end.

(** ** The summary built by a caller

    src/tests/api/test_userinfo_data_tags.py,
    [test_document_all_field_classifications]:
    [service_schema = tag_validator.get_service_schema('userinfo')]
    [fields = service_schema.get('fields', {})]
    [summary = []]
    [for field_name, field_info in fields.items():
       summary.append({'field': field_name,
                       'piiLevel': field_info.get('piiLevel'),
                       'piiLevelName': field_info.get('piiLevelName'),
                       'retention': field_info.get('retention'),
                       'description': field_info.get('description')})]
    The attachment and the printing that follow are left out. *)
Definition summary_entry (field_name : string) (field_info : json)
  : result json :=
  level <- Py.get field_info "piiLevel" JNull ;;
  level_name <- Py.get field_info "piiLevelName" JNull ;;
  retention <- Py.get field_info "retention" JNull ;;
  description <- Py.get field_info "description" JNull ;;
  Ok (JObj [("field", JStr field_name); ("piiLevel", level);
            ("piiLevelName", level_name); ("retention", retention);
            ("description", description)]).

Fixpoint collect_summary (its : pydict) (summary : list json)
  : result (list json) :=
  match its with
  | [] => Ok summary
  | (field_name, field_info) :: rest =>
      entry <- summary_entry field_name field_info ;;
      collect_summary rest (summary ++ [entry])
  end.

Definition field_classification_summary (tag_validator : TagValidator)
  : result (list json) :=
  service_schema <- get_service_schema tag_validator "userinfo" ;;
  fields <- Py.get service_schema "fields" (JObj []) ;;
  its <- Py.items fields ;;
  collect_summary its [].

(** The loop of [test_userinfo_contains_sensitive_fields] on the validator:
    [for field in sensitive_fields:
       pii_level = tag_validator.get_field_tags('userinfo', field)['piiLevel']],
    collecting the levels read.  The service name, ['userinfo'] in the
    test, is a parameter here; the assertion on the HTTP response that
    precedes the read in the loop body is left out. *)
Fixpoint read_levels (tag_validator : TagValidator) (service_name : string)
  (sensitive_fields : list string) : result (list json) :=
  match sensitive_fields with
  | [] => Ok []
  | field :: rest =>
      tags <- get_field_tags tag_validator service_name field ;;
      pii_level <- Py.getitem tags "piiLevel" ;;
      levels <- read_levels tag_validator service_name rest ;;
      Ok (pii_level :: levels)
  end.

(** The value a summary entry shows for one attribute of a field record:
    the stored value, or [None] when the record has no such key. *)
Definition entry_or_null (info : json) (key : string) : json :=
  match field_entry info key with
  | Some v => v
  | None => JNull
  end.

Definition summary_of (kv : string * json) : json :=
  JObj [("field", JStr (fst kv));
        ("piiLevel", entry_or_null (snd kv) "piiLevel");
        ("piiLevelName", entry_or_null (snd kv) "piiLevelName");
        ("retention", entry_or_null (snd kv) "retention");
        ("description", entry_or_null (snd kv) "description")].

(** The scenario with a second, empty service declared before [userinfo]. *)
Definition scenario_with_orders : TagValidator :=
  {| schema :=
       JObj [("version", JInt 1);
             ("services",
              JObj [("orders", JObj []);
                    ("userinfo",
                     JObj [("fields",
                            JObj [("userPassword", password_tags);
                                  ("city", city_tags)])])])] |}.

(** A validator whose document has the right nesting and a [piiLevel] that
    is a string. *)
Definition text_level_validator : TagValidator :=
  {| schema :=
       JObj [("services",
              JObj [("userinfo",
                     JObj [("fields",
                            JObj [("city",
                                   JObj [("piiLevel", JStr "LOW")])])])])]
  |}.

(** ** Facts about the Python operations *)

Lemma lookup_In (k : string) (d : pydict) (v : json) :
  Py.lookup k d = Some v -> In (k, v) d.
Proof.
  induction d as [| [k' v'] d IH]; simpl; [discriminate |].
  destruct (String.eqb_spec k k') as [-> | _].
  - intros [= ->]. now left.
  - intros H. right. now apply IH.
Qed.

Lemma lookup_None (k : string) (d : pydict) :
  Py.lookup k d = None <-> ~ In k (map fst d).
Proof.
  induction d as [| [k' v'] d IH]; simpl.
  - tauto.
  - destruct (String.eqb_spec k k') as [-> | Hne].
    + split; [discriminate | intros H; exfalso; apply H; now left].
    + rewrite IH. split; [intros H [E | I]; [now subst | tauto] | tauto].
Qed.

Lemma existsb_eqb_In (k : string) (l : list string) :
  existsb (String.eqb k) l = true <-> In k l.
Proof.
  rewrite existsb_exists. split.
  - intros [x [Hin Heq]]. apply String.eqb_eq in Heq. now subst.
  - intros Hin. exists k. split; [assumption | apply String.eqb_refl].
Qed.

(** In a dict, the entries are exactly the bindings that [lookup] finds. *)
Lemma In_lookup (k : string) (d : pydict) (v : json) :
  distinct (map fst d) = true -> In (k, v) d -> Py.lookup k d = Some v.
Proof.
  induction d as [| [k' v'] d IH]; simpl; [tauto |].
  intros Hd [E | Hin].
  - injection E as -> ->. now rewrite String.eqb_refl.
  - apply andb_prop in Hd as [Hfresh Hd].
    destruct (String.eqb_spec k k') as [-> | _]; [| now apply IH].
    apply negb_true_iff in Hfresh.
    assert (Hk : existsb (String.eqb k') (map fst d) = true).
    { apply existsb_eqb_In. apply (in_map fst) in Hin. exact Hin. }
    congruence.
Qed.

Lemma forallb_lookup (p : json -> bool) (k : string) (d : pydict) (v : json) :
  forallb (fun kv => p (snd kv)) d = true ->
  Py.lookup k d = Some v -> p v = true.
Proof.
  intros Hall Hk. apply lookup_In in Hk.
  rewrite forallb_forall in Hall. exact (Hall (k, v) Hk).
Qed.

Lemma wf_json_lookup (k : string) (d : pydict) (v : json) :
  wf_json (JObj d) = true -> Py.lookup k d = Some v -> wf_json v = true.
Proof.
  simpl. intros H Hk. apply andb_prop in H as [_ H].
  apply lookup_In in Hk. rewrite forallb_forall in H. exact (H (k, v) Hk).
Qed.

Lemma wf_json_keys (d : pydict) :
  wf_json (JObj d) = true -> distinct (map fst d) = true.
Proof.
  simpl. intros H. now apply andb_prop in H as [H _].
Qed.

(** ** Reading one field classification *)

Lemma read_level (info : json) :
  field_ok info = true ->
  Py.get info "piiLevel" (JInt 0) = Ok (JInt (pii_level info)).
Proof.
  destruct info as [| | | | | | d]; simpl; try discriminate.
  unfold pii_level, field_entry.
  destruct (Py.lookup "piiLevel" d) as [[] |]; simpl; try discriminate;
    reflexivity.
Qed.

Lemma read_required (info : json) :
  field_ok info = true ->
  exists r, Py.get info "required" (JBool false) = Ok r
            /\ Py.truthy r = is_required info.
Proof.
  destruct info as [| | | | | | d]; simpl; try discriminate.
  unfold is_required, field_entry. intros H.
  apply andb_prop in H as [_ H].
  destruct (Py.lookup "required" d) as [[] |]; try discriminate;
    eexists; split; reflexivity.
Qed.

Lemma read_retention (info : json) :
  field_ok info = true ->
  Py.get info "retention" (JStr "RETAIN_INDEFINITE")
  = Ok (JStr (retention_of info)).
Proof.
  destruct info as [| | | | | | d]; simpl; try discriminate.
  unfold retention_of, field_entry. intros H.
  apply andb_prop in H as [H _]. apply andb_prop in H as [_ H].
  destruct (Py.lookup "retention" d) as [[] |]; try discriminate; reflexivity.
Qed.

(** ** The loops *)

Lemma required_names_filter (its : pydict) :
  forallb (fun kv => field_ok (snd kv)) its = true ->
  required_names its
  = Ok (map fst (filter (fun kv => is_required (snd kv)) its)).
Proof.
  induction its as [| [name info] rest IH]; simpl; [reflexivity |].
  intros H. apply andb_prop in H as [Hinfo Hrest].
  destruct (read_required info Hinfo) as [r [-> Hr]]. simpl.
  rewrite (IH Hrest). simpl. rewrite Hr.
  now destruct (is_required info).
Qed.

Lemma collect_missing_filter (required : list string) (data : pydict) :
  forall acc,
    collect_missing required data acc
    = (acc ++ filter (fun k => negb (Py.contains data k)) required)%list.
Proof.
  induction required as [| field rest IH]; intros acc; simpl.
  - now rewrite app_nil_r.
  - destruct (negb (Py.contains data field)).
    + rewrite IH, <- app_assoc. reflexivity.
    + apply IH.
Qed.

Lemma collect_sensitive_filter (its : pydict) (min_level : Z) :
  forallb (fun kv => field_ok (snd kv)) its = true ->
  forall acc,
    collect_sensitive its min_level acc
    = Ok (acc ++ map fst (filter (fun kv => min_level <=? pii_level (snd kv))
                            its))%list.
Proof.
  induction its as [| [name info] rest IH]; simpl; intros H acc.
  - now rewrite app_nil_r.
  - apply andb_prop in H as [Hinfo Hrest].
    rewrite (read_level info Hinfo). simpl.
    rewrite (IH Hrest).
    destruct (min_level <=? pii_level info); simpl.
    + now rewrite <- app_assoc.
    + reflexivity.
Qed.

(** ** From the document to the field mapping a query walks *)

Lemma schema_ok_services (doc : json) :
  schema_ok doc = true ->
  Py.getitem doc "services" = Ok (JObj (services_of doc))
  /\ forallb (fun kv => service_ok (snd kv)) (services_of doc) = true.
Proof.
  destruct doc as [| | | | | | d]; simpl; try discriminate.
  destruct (Py.lookup "services" d) as [[] |]; try discriminate.
  intros H. now split.
Qed.

Lemma service_ok_fields (svc : json) :
  service_ok svc = true ->
  exists fields,
    Py.get svc "fields" (JObj []) = Ok (JObj fields)
    /\ forallb (fun kv => field_ok (snd kv)) fields = true
    /\ fields = match svc with
                | JObj d => match Py.lookup "fields" d with
                            | Some (JObj fields) => fields
                            | _ => []
                            end
                | _ => []
                end.
Proof.
  destruct svc as [| | | | | | d]; simpl; try discriminate.
  destruct (Py.lookup "fields" d) as [[] |]; try discriminate; intros H;
    eexists; repeat split; assumption || reflexivity.
Qed.

(** On a document of the expected format, the first two steps of every
    query return, and what they reach is [fields_of]. *)
Lemma service_fields (self : TagValidator) (service_name : string) :
  schema_ok (schema self) = true ->
  exists svc,
    get_service_schema self service_name = Ok svc
    /\ Py.get svc "fields" (JObj [])
       = Ok (JObj (fields_of (schema self) service_name))
    /\ forallb (fun kv => field_ok (snd kv))
         (fields_of (schema self) service_name) = true.
Proof.
  intros Hok. destruct (schema_ok_services _ Hok) as [Hget Hall].
  unfold get_service_schema, fields_of. rewrite Hget. simpl.
  destruct (Py.lookup service_name (services_of (schema self)))
    as [svc |] eqn:Hsvc.
  - pose proof (forallb_lookup service_ok _ _ _ Hall Hsvc) as Hs.
    destruct (service_ok_fields svc Hs) as [fields [Hf [Hfa Heq]]].
    exists svc. destruct svc; try discriminate.
    subst fields. repeat split; assumption.
  - exists (JObj []). repeat split; reflexivity.
Qed.

Lemma field_tags (self : TagValidator) (service_name field_name : string) :
  schema_ok (schema self) = true ->
  exists tags,
    get_field_tags self service_name field_name = Ok tags
    /\ field_ok tags = true
    /\ tags = match Py.lookup field_name
                      (fields_of (schema self) service_name) with
              | Some info => info
              | None => JObj []
              end.
Proof.
  intros Hok.
  destruct (service_fields self service_name Hok) as [svc [Hs [Hf Hall]]].
  unfold get_field_tags. rewrite Hs. simpl. rewrite Hf. simpl.
  destruct (Py.lookup field_name (fields_of (schema self) service_name))
    as [info |] eqn:Hinfo.
  - exists info. repeat split.
    exact (forallb_lookup field_ok _ _ _ Hall Hinfo).
  - exists (JObj []). repeat split.
Qed.

Lemma unknown_service_no_fields (doc : json) (service_name : string) :
  Py.contains (services_of doc) service_name = false ->
  fields_of doc service_name = [].
Proof.
  unfold Py.contains, fields_of.
  destruct (Py.lookup service_name (services_of doc)); [discriminate |].
  reflexivity.
Qed.

Lemma sensitive_fields_filter (self : TagValidator) (service_name : string)
  (min_level : Z) :
  schema_ok (schema self) = true ->
  get_sensitive_fields self service_name (Some min_level)
  = Ok (fields_at_least (schema self) service_name min_level).
Proof.
  intros Hok.
  destruct (service_fields self service_name Hok) as [svc [Hs [Hf Hall]]].
  unfold get_sensitive_fields. rewrite Hs. simpl. rewrite Hf. simpl.
  now rewrite (collect_sensitive_filter _ min_level Hall).
Qed.

Lemma In_fields_at_least (doc : json) (service_name : string) (level : Z)
  (field_name : string) :
  In field_name (fields_at_least doc service_name level)
  <-> exists info, In (field_name, info) (fields_of doc service_name)
                   /\ level <= pii_level info.
Proof.
  unfold fields_at_least. rewrite in_map_iff. split.
  - intros [[k info] [Hk Hin]]. simpl in Hk. subst k.
    apply filter_In in Hin as [Hin Hlv]. simpl in Hlv.
    exists info. split; [assumption | now apply Z.leb_le].
  - intros [info [Hin Hlv]]. exists (field_name, info). split; [reflexivity |].
    apply filter_In. split; [assumption | now apply Z.leb_le].
Qed.

Lemma filter_nil_iff {A : Type} (p : A -> bool) (l : list A) :
  filter p l = [] <-> forall x, In x l -> p x = false.
Proof.
  induction l as [| a l IH]; simpl.
  - split; [intros _ x [] | reflexivity].
  - destruct (p a) eqn:Hp.
    + split; [discriminate |].
      intros H. specialize (H a (or_introl eq_refl)). congruence.
    + rewrite IH. split.
      * intros H x [<- | Hin]; [assumption | now apply H].
      * intros H x Hin. apply H. now right.
Qed.

Lemma fields_of_distinct (doc : json) (service_name : string) :
  wf_json doc = true ->
  distinct (map fst (fields_of doc service_name)) = true.
Proof.
  intros Hwf. unfold fields_of, services_of.
  destruct doc as [| | | | | | d]; try reflexivity.
  destruct (Py.lookup "services" d) as [[| | | | | | svcs] |] eqn:Hs;
    try reflexivity.
  pose proof (wf_json_lookup _ _ _ Hwf Hs) as Hsvcs.
  destruct (Py.lookup service_name svcs) as [[| | | | | | svc] |] eqn:Hsvc;
    try reflexivity.
  pose proof (wf_json_lookup _ _ _ Hsvcs Hsvc) as Hsv.
  destruct (Py.lookup "fields" svc) as [[| | | | | | fields] |] eqn:Hf;
    try reflexivity.
  apply wf_json_keys. exact (wf_json_lookup _ _ _ Hsv Hf).
Qed.

Lemma levels_nonneg_fields (doc : json) (service_name field_name : string)
  (info : json) :
  levels_nonneg doc = true ->
  In (field_name, info) (fields_of doc service_name) ->
  0 <= pii_level info.
Proof.
  unfold levels_nonneg. intros Hall Hin.
  destruct (Py.lookup service_name (services_of doc)) as [svc |] eqn:Hsvc.
  - apply lookup_In in Hsvc. rewrite forallb_forall in Hall.
    specialize (Hall _ Hsvc). simpl in Hall.
    rewrite forallb_forall in Hall. specialize (Hall _ Hin).
    now apply Z.leb_le in Hall.
  - unfold fields_of in Hin. rewrite Hsvc in Hin. destruct Hin.
Qed.

(** Raising the threshold can only turn a comparison from true to false;
    whether the comparison raises does not depend on the threshold. *)
Lemma ge_antitone (level : json) (n1 n2 : Z) (b1 : bool) :
  n1 <= n2 ->
  Py.ge level n1 = Ok b1 ->
  exists b2, Py.ge level n2 = Ok b2 /\ (b2 = true -> b1 = true).
Proof.
  intros Hle. destruct level as [| b | m | x | | |]; simpl; try discriminate;
    intros [= <-]; eexists; (split; [reflexivity |]).
  - rewrite !Z.leb_le. lia.
  - rewrite !Z.leb_le. lia.
  - destruct x as [| negative | q]; simpl; try tauto.
    rewrite !Qle_bool_iff. intros H.
    apply Qle_trans with (y := inject_Z n2); [| exact H].
    rewrite <- Zle_Qle. exact Hle.
Qed.

Lemma collect_sensitive_antitone (its : pydict) (n1 n2 : Z) :
  n1 <= n2 ->
  forall acc1 acc2 fields1,
    incl acc2 acc1 ->
    collect_sensitive its n1 acc1 = Ok fields1 ->
    exists fields2,
      collect_sensitive its n2 acc2 = Ok fields2 /\ incl fields2 fields1.
Proof.
  intros Hle.
  induction its as [| [name info] rest IH]; simpl; intros acc1 acc2 fields1.
  - intros Hincl [= <-]. now exists acc2.
  - intros Hincl.
    destruct (Py.get info "piiLevel" (JInt 0)) as [level | e]; simpl;
      [| discriminate].
    destruct (Py.ge level n1) as [b1 | e] eqn:H1; simpl; [| discriminate].
    destruct (ge_antitone level n1 n2 b1 Hle H1) as [b2 [-> Hb]]. simpl.
    apply IH.
    destruct b2.
    + rewrite (Hb eq_refl). apply incl_app.
      * now apply incl_appl.
      * apply incl_appr. apply incl_refl.
    + destruct b1; [now apply incl_appl | assumption].
Qed.

(** ** The claims *)

Section Queries.

Variable self : TagValidator.
Hypothesis format : schema_ok (schema self) = true.

(** C1. [validate_field_exists(service_name, data)] returns exactly the
    field names of the service whose classification has [required = true]
    and that are not keys of [data], in the declaration order of the
    schema; the result is empty if and only if every required field is a
    key of [data]; only the keys of [data] are looked at, never its
    values. *)
Theorem validate_field_exists_missing_required
  (service_name : string) (data : pydict) :
  validate_field_exists self service_name data
  = Ok (filter (fun k => negb (Py.contains data k))
          (required_fields_of (schema self) service_name))
  /\ (validate_field_exists self service_name data = Ok []
      <-> forall k, In k (required_fields_of (schema self) service_name) ->
                    Py.contains data k = true)
  /\ (forall data' : pydict,
         (forall k, Py.contains data' k = Py.contains data k) ->
         validate_field_exists self service_name data'
         = validate_field_exists self service_name data).
Proof.
  destruct (service_fields self service_name format) as [svc [Hs [Hf Hall]]].
  assert (Hrun : forall d : pydict,
             validate_field_exists self service_name d
             = Ok (filter (fun k => negb (Py.contains d k))
                     (required_fields_of (schema self) service_name))).
  { intros d. unfold validate_field_exists. rewrite Hs. simpl.
    rewrite Hf. simpl. rewrite (required_names_filter _ Hall). simpl.
    now rewrite collect_missing_filter. }
  split; [apply Hrun | split].
  - rewrite Hrun. split.
    + intros [= Hnil] k Hin.
      apply (proj1 (filter_nil_iff _ _) Hnil) in Hin.
      now apply negb_false_iff in Hin.
    + intros Hall'. f_equal. apply filter_nil_iff. intros k Hin.
      apply negb_false_iff. now apply Hall'.
  - intros data' Hkeys. rewrite !Hrun. f_equal.
    apply filter_ext. intros k. now rewrite Hkeys.
Qed.

(** C2. [get_sensitive_fields(service_name, min_level)] returns exactly the
    field names of the service whose [piiLevel] (0 when absent) is at least
    [min_level], the bound included, in the declaration order of the
    schema; a call without [min_level] uses 2. *)
Theorem get_sensitive_fields_threshold (service_name : string) :
  (forall min_level : Z,
      get_sensitive_fields self service_name (Some min_level)
      = Ok (map fst (filter (fun kv => min_level <=? pii_level (snd kv))
                       (fields_of (schema self) service_name))))
  /\ get_sensitive_fields self service_name None
     = get_sensitive_fields self service_name (Some 2)
  /\ (forall (field_name : string) (info : json),
         In (field_name, info) (fields_of (schema self) service_name) ->
         Py.get info "piiLevel" (JInt 0) = Ok (JInt (pii_level info))).
Proof.
  split; [| split].
  - intros min_level. now apply sensitive_fields_filter.
  - reflexivity.
  - intros field_name info Hin.
    destruct (service_fields self service_name format) as [_ [_ [_ Hall]]].
    apply read_level. rewrite forallb_forall in Hall.
    exact (Hall _ Hin).
Qed.

(** C3. [should_field_be_encrypted(service_name, field_name)] is true if
    and only if the [piiLevel] of [get_field_tags(service_name, field_name)]
    (0 when absent) is at least 3; it is false for an unknown service and
    for an unknown field. *)
Theorem should_field_be_encrypted_threshold
  (service_name field_name : string) :
  exists tags,
    get_field_tags self service_name field_name = Ok tags
    /\ Py.get tags "piiLevel" (JInt 0) = Ok (JInt (pii_level tags))
    /\ should_field_be_encrypted self service_name field_name
       = Ok (3 <=? pii_level tags)
    /\ (should_field_be_encrypted self service_name field_name = Ok true
        <-> 3 <= pii_level tags)
    /\ (Py.contains (services_of (schema self)) service_name = false
        \/ Py.contains (fields_of (schema self) service_name) field_name
           = false ->
        should_field_be_encrypted self service_name field_name = Ok false).
Proof.
  destruct (field_tags self service_name field_name format)
    as [tags [Ht [Hok Heq]]].
  exists tags.
  assert (Hrun : should_field_be_encrypted self service_name field_name
                 = Ok (3 <=? pii_level tags)).
  { unfold should_field_be_encrypted. rewrite Ht. simpl.
    now rewrite (read_level tags Hok). }
  repeat split; try assumption.
  - now apply read_level.
  - rewrite Hrun. intros [= H]. now apply Z.leb_le.
  - intros H. rewrite Hrun. f_equal. now apply Z.leb_le.
  - intros Hunknown. rewrite Hrun.
    assert (Hnone : Py.lookup field_name (fields_of (schema self) service_name)
                    = None).
    { destruct Hunknown as [Hs | Hf].
      - now rewrite (unknown_service_no_fields _ _ Hs).
      - unfold Py.contains in Hf.
        now destruct (Py.lookup field_name
                        (fields_of (schema self) service_name)). }
    rewrite Hnone in Heq. now subst tags.
Qed.

(** C8. [get_retention_policy(service_name, field_name)] returns the
    [retention] string of the field classification when it has one, and
    exactly ["RETAIN_INDEFINITE"] when the classification has none or the
    service or the field is unknown. *)
Theorem get_retention_policy_default (service_name field_name : string) :
  exists policy : string,
    get_retention_policy self service_name field_name = Ok (JStr policy)
    /\ match Py.lookup field_name (fields_of (schema self) service_name) with
       | Some info =>
           match field_entry info "retention" with
           | Some retention => retention = JStr policy
           | None => policy = "RETAIN_INDEFINITE"
           end
       | None => policy = "RETAIN_INDEFINITE"
       end
    /\ (Py.contains (services_of (schema self)) service_name = false ->
        policy = "RETAIN_INDEFINITE").
Proof.
  destruct (field_tags self service_name field_name format)
    as [tags [Ht [Hok Heq]]].
  exists (retention_of tags). split; [| split].
  - unfold get_retention_policy. rewrite Ht. simpl.
    now apply read_retention.
  - destruct (Py.lookup field_name (fields_of (schema self) service_name))
      as [info |]; subst tags; [| reflexivity].
    destruct info as [| | | | | | d]; try discriminate.
    unfold retention_of, field_entry. simpl in Hok.
    apply andb_prop in Hok as [Hok _]. apply andb_prop in Hok as [_ Hok].
    destruct (Py.lookup "retention" d) as [[] |]; try discriminate;
      reflexivity.
  - intros Hs.
    rewrite (unknown_service_no_fields _ _ Hs) in Heq. simpl in Heq.
    now subst tags.
Qed.

(** C9. The two thresholds agree: a field name is returned by
    [get_sensitive_fields(service_name, 3)] if and only if it is declared
    in the field mapping of the service and
    [should_field_be_encrypted(service_name, field_name)] is true. *)
Theorem sensitive_at_3_iff_encrypted (service_name field_name : string) :
  wf_json (schema self) = true ->
  exists fields,
    get_sensitive_fields self service_name (Some 3) = Ok fields
    /\ (In field_name fields
        <-> In field_name (map fst (fields_of (schema self) service_name))
            /\ should_field_be_encrypted self service_name field_name
               = Ok true).
Proof.
  intros Hwf.
  pose proof (fields_of_distinct (schema self) service_name Hwf) as Hkeys.
  destruct (field_tags self service_name field_name format)
    as [tags [Ht [Hok Heq]]].
  assert (Hrun : should_field_be_encrypted self service_name field_name
                 = Ok (3 <=? pii_level tags)).
  { unfold should_field_be_encrypted. rewrite Ht. simpl.
    now rewrite (read_level tags Hok). }
  exists (fields_at_least (schema self) service_name 3).
  split; [now apply sensitive_fields_filter |].
  rewrite In_fields_at_least, Hrun. split.
  - intros [info [Hin Hlv]]. split.
    + apply (in_map fst) in Hin. exact Hin.
    + rewrite (In_lookup _ _ _ Hkeys Hin) in Heq. subst tags.
      f_equal. now apply Z.leb_le.
  - intros [Hdecl [= Hlv]]. apply Z.leb_le in Hlv.
    destruct (Py.lookup field_name (fields_of (schema self) service_name))
      as [info |] eqn:Hlook.
    + subst tags. exists info. split; [now apply lookup_In | assumption].
    + apply lookup_None in Hlook. contradiction.
Qed.

(** C10, as the code has it.  When every level declared in the document is
    non-negative (the invariant of the data model, which the code does not
    check), [get_sensitive_fields(service_name, min_level)] with
    [min_level <= 0] returns every field name declared in the field mapping
    of the service, in declaration order: a missing [piiLevel] reads as 0,
    so no declared field is below the threshold. *)
Theorem nonpositive_threshold_returns_all
  (service_name : string) (min_level : Z) :
  levels_nonneg (schema self) = true ->
  min_level <= 0 ->
  get_sensitive_fields self service_name (Some min_level)
  = Ok (map fst (fields_of (schema self) service_name)).
Proof.
  intros Hnonneg Hle.
  rewrite (sensitive_fields_filter self service_name min_level format).
  unfold fields_at_least. do 2 f_equal.
  pose proof (fun f i =>
                levels_nonneg_fields (schema self) service_name f i Hnonneg)
    as Hlv.
  induction (fields_of (schema self) service_name) as [| [f info] rest IH];
    simpl; [reflexivity |].
  assert (H0 : (min_level <=? pii_level info) = true).
  { apply Z.leb_le. specialize (Hlv f info (or_introl eq_refl)). lia. }
  rewrite H0. f_equal. apply IH. intros f' i' Hin. apply (Hlv f' i').
  now right.
Qed.

(** C5, as the code has it.  On a validator whose document has the
    expected format (an object whose [services] is an object of service
    objects, each with an optional [fields] object of field objects whose
    [piiLevel], [retention] and [required], when present, are an integer, a
    string and a boolean), every query returns for every service name,
    field name, candidate record and threshold: none raises. *)
Theorem queries_total_on_expected_format
  (service_name field_name : string) (data : pydict)
  (min_level : option Z) :
  returns (get_service_schema self service_name)
  /\ returns (get_field_tags self service_name field_name)
  /\ returns (validate_field_exists self service_name data)
  /\ returns (get_sensitive_fields self service_name min_level)
  /\ returns (should_field_be_encrypted self service_name field_name)
  /\ returns (get_retention_policy self service_name field_name).
Proof.
  destruct (service_fields self service_name format) as [svc [Hs [Hf Hall]]].
  destruct (field_tags self service_name field_name format)
    as [tags [Ht [Hok _]]].
  unfold returns. repeat split.
  - now exists svc.
  - now exists tags.
  - unfold validate_field_exists. rewrite Hs. simpl. rewrite Hf. simpl.
    rewrite (required_names_filter _ Hall). simpl. now eexists.
  - unfold get_sensitive_fields. rewrite Hs. simpl. rewrite Hf. simpl.
    rewrite (collect_sensitive_filter _ _ Hall). now eexists.
  - unfold should_field_be_encrypted. rewrite Ht. simpl.
    rewrite (read_level tags Hok). simpl. now eexists.
  - unfold get_retention_policy. rewrite Ht. simpl.
    rewrite (read_retention tags Hok). now eexists.
Qed.

End Queries.

(** C6. Threshold monotonicity: when [min_level1 <= min_level2], every
    field name returned by [get_sensitive_fields(service_name, min_level2)]
    is returned by [get_sensitive_fields(service_name, min_level1)].  Both
    calls return on a document of the expected format; on any document at
    all, the second returns whenever the first does. *)
Theorem get_sensitive_fields_monotone (self : TagValidator)
  (service_name : string) (min_level1 min_level2 : Z) :
  min_level1 <= min_level2 ->
  (schema_ok (schema self) = true ->
   returns (get_sensitive_fields self service_name (Some min_level1)))
  /\ (forall fields1,
        get_sensitive_fields self service_name (Some min_level1) = Ok fields1 ->
        exists fields2,
          get_sensitive_fields self service_name (Some min_level2) = Ok fields2
          /\ incl fields2 fields1).
Proof.
  intros Hle. split.
  - intros Hok. eexists. now apply sensitive_fields_filter.
  - unfold get_sensitive_fields. intros fields1.
    destruct (get_service_schema self service_name) as [svc | e]; simpl;
      [| discriminate].
    destruct (Py.get svc "fields" (JObj [])) as [fields | e]; simpl;
      [| discriminate].
    destruct (Py.items fields) as [its | e]; simpl; [| discriminate].
    apply (collect_sensitive_antitone its _ _ Hle). apply incl_refl.
Qed.

(** C7. Default consistency for unknown services: when [service_name] is
    not a key of the [services] mapping of the document,
    [get_service_schema(service_name)] returns the empty descriptor and
    [get_field_tags(service_name, field_name)] returns, for every field name,
    the empty record, which reads as all defaults: [piiLevel] 0, [retention]
    ["RETAIN_INDEFINITE"], [required] false.  Neither call raises. *)
Theorem unknown_service_defaults (self : TagValidator) (services : pydict)
  (service_name : string) :
  Py.getitem (schema self) "services" = Ok (JObj services) ->
  Py.contains services service_name = false ->
  get_service_schema self service_name = Ok (JObj [])
  /\ forall field_name : string,
      exists tags,
        get_field_tags self service_name field_name = Ok tags
        /\ tags = JObj []
        /\ Py.get tags "piiLevel" (JInt 0) = Ok (JInt 0)
        /\ Py.get tags "retention" (JStr "RETAIN_INDEFINITE")
           = Ok (JStr "RETAIN_INDEFINITE")
        /\ Py.get tags "required" (JBool false) = Ok (JBool false)
        /\ should_field_be_encrypted self service_name field_name = Ok false
        /\ get_retention_policy self service_name field_name
           = Ok (JStr "RETAIN_INDEFINITE").
Proof.
  intros Hservices Hunknown.
  assert (Hs : get_service_schema self service_name = Ok (JObj [])).
  { unfold get_service_schema. rewrite Hservices. simpl.
    unfold Py.contains in Hunknown.
    now destruct (Py.lookup service_name services). }
  split; [exact Hs |].
  intros field_name. exists (JObj []).
  assert (Ht : get_field_tags self service_name field_name = Ok (JObj [])).
  { unfold get_field_tags. now rewrite Hs. }
  repeat split; try assumption.
  - unfold should_field_be_encrypted. now rewrite Ht.
  - unfold get_retention_policy. now rewrite Ht.
Qed.

(** C4, as the code has it.  Constructing a validator on a source that does
    not exist raises the built-in [FileNotFoundError], an [OSError].
    Constructing it on a source whose content is
    [{"services": "not-an-object"}] succeeds: [__init__] keeps whatever value
    the source parses to and checks no shape, so every source that parses
    yields a validator, and on that document the malformed [services] entry
    shows only when a query reads it, as an [AttributeError]. *)
Theorem construction_checks_no_shape (fs : filesystem)
  (missing_path scalar_path : string) :
  fs missing_path = NoSuchFile ->
  fs scalar_path = Loads scalar_services_doc ->
  __init__ fs (Some missing_path) = Raise FileNotFoundError
  /\ raises (__init__ fs (Some missing_path)) "OSError"
  /\ (exists self,
        __init__ fs (Some scalar_path) = Ok self
        /\ schema self = scalar_services_doc
        /\ forall service_name,
            get_service_schema self service_name = Raise AttributeError)
  /\ (forall (path : string) (doc : json),
        fs path = Loads doc ->
        __init__ fs (Some path) = Ok {| schema := doc |}).
Proof.
  intros Hmissing Hscalar. unfold __init__. rewrite Hmissing, Hscalar.
  split; [reflexivity |]. split; [| split].
  - exists FileNotFoundError. split; [reflexivity | simpl; tauto].
  - eexists. split; [reflexivity |]. split; reflexivity.
  - intros path doc Hpath. now rewrite Hpath.
Qed.

(** ** The claims that fail on the code, at concrete inputs *)

(** C4 fails: on [disk], constructing on the absent ["missing.json"] raises
    nothing that [except SchemaLoadError] would catch, and constructing on
    ["bad_services.json"], whose content is [{"services": "not-an-object"}],
    raises nothing at all: it returns a validator. *)
Lemma construction_raises_no_schema_error :
  disk "missing.json" = NoSuchFile
  /\ disk "bad_services.json" = Loads scalar_services_doc
  /\ ~ raises (__init__ disk (Some "missing.json")) "SchemaLoadError"
  /\ ~ raises (__init__ disk (Some "bad_services.json")) "SchemaParseError"
  /\ returns (__init__ disk (Some "bad_services.json")).
Proof.
  split; [reflexivity |]. split; [reflexivity |]. split; [| split].
  - intros [e [He Hin]]. injection He as <-. simpl in Hin.
    repeat destruct Hin as [Hin | Hin]; try discriminate Hin; exact Hin.
  - intros [e [He _]]. discriminate He.
  - eexists. reflexivity.
Qed.

(** C5 fails: construction succeeds on ["empty_object.json"], whose content
    is [{}], and the first query on the validator raises [KeyError]. *)
Lemma constructed_validator_query_raises :
  exists self,
    __init__ disk (Some "empty_object.json") = Ok self
    /\ get_service_schema self "userinfo" = Raise KeyError
    /\ ~ returns (get_service_schema self "userinfo").
Proof.
  eexists. split; [reflexivity |]. split; [reflexivity |].
  intros [a Ha]. discriminate Ha.
Qed.

(** C10 fails: the threshold 0 leaves out a declared field whose level is
    negative. *)
Lemma negative_level_below_zero_threshold :
  schema_ok negative_level_doc = true
  /\ wf_json negative_level_doc = true
  /\ map fst (fields_of negative_level_doc "ledger") = ["adjustment"; "memo"]
  /\ get_sensitive_fields {| schema := negative_level_doc |} "ledger" (Some 0)
     = Ok ["memo"]
  /\ get_sensitive_fields {| schema := negative_level_doc |} "ledger" (Some 0)
     <> Ok (map fst (fields_of negative_level_doc "ledger")).
Proof.
  repeat split; try reflexivity. discriminate.
Qed.

(** A document with the right nesting still makes a query raise when a
    [piiLevel] is not a number. *)
Example level_of_wrong_type_raises :
  let doc :=
    JObj [("services",
           JObj [("userinfo",
                  JObj [("fields",
                         JObj [("city", JObj [("piiLevel", JStr "LOW")])])])])]
  in
  get_sensitive_fields {| schema := doc |} "userinfo" None = Raise TypeError
  /\ should_field_be_encrypted {| schema := doc |} "userinfo" "city"
     = Raise TypeError.
Proof. split; reflexivity. Qed.

(** ** The scenario of the specification, run on the code *)

Example scenario_loads :
  __init__ disk None = Ok scenario.
Proof. reflexivity. Qed.

Example scenario_sensitive :
  get_sensitive_fields scenario "userinfo" (Some 2) = Ok ["userPassword"].
Proof. reflexivity. Qed.

Example scenario_encrypted :
  should_field_be_encrypted scenario "userinfo" "userPassword" = Ok true
  /\ should_field_be_encrypted scenario "userinfo" "city" = Ok false.
Proof. split; reflexivity. Qed.

Example scenario_missing :
  validate_field_exists scenario "userinfo" [("city", JStr "Boston")]
  = Ok ["userPassword"].
Proof. reflexivity. Qed.

Example scenario_retention :
  get_retention_policy scenario "userinfo" "city"
  = Ok (JStr "RETAIN_INDEFINITE")
  /\ get_retention_policy scenario "userinfo" "userPassword"
     = Ok (JStr "RETAIN_7_YEARS").
Proof. split; reflexivity. Qed.

(** ** The theorems at the scenario *)

Lemma validate_field_exists_missing_required_scenario :
  schema_ok (schema scenario) = true
  /\ validate_field_exists scenario "userinfo" [("city", JStr "Boston")]
     = Ok ["userPassword"]
  /\ validate_field_exists scenario "userinfo"
       [("city", JNull); ("userPassword", JNull)]
     = Ok [].
Proof.
  split; [reflexivity | split].
  - exact (proj1 (validate_field_exists_missing_required scenario eq_refl
                    "userinfo" [("city", JStr "Boston")])).
  - exact (proj1 (validate_field_exists_missing_required scenario eq_refl
                    "userinfo" [("city", JNull); ("userPassword", JNull)])).
Defined.

Lemma get_sensitive_fields_threshold_scenario :
  schema_ok (schema scenario) = true
  /\ get_sensitive_fields scenario "userinfo" (Some 1)
     = Ok ["userPassword"; "city"]
  /\ get_sensitive_fields scenario "userinfo" None
     = get_sensitive_fields scenario "userinfo" (Some 2).
Proof.
  split; [reflexivity | split].
  - exact (proj1 (get_sensitive_fields_threshold scenario eq_refl "userinfo")
             1).
  - exact (proj1 (proj2 (get_sensitive_fields_threshold scenario eq_refl
                           "userinfo"))).
Defined.

Lemma should_field_be_encrypted_threshold_scenario :
  schema_ok (schema scenario) = true
  /\ exists tags,
      get_field_tags scenario "userinfo" "userPassword" = Ok tags
      /\ should_field_be_encrypted scenario "userinfo" "userPassword"
         = Ok (3 <=? pii_level tags).
Proof.
  split; [reflexivity |].
  destruct (should_field_be_encrypted_threshold scenario eq_refl
              "userinfo" "userPassword") as [tags [Ht [_ [Hrun _]]]].
  exists tags. split; assumption.
Defined.

Lemma get_sensitive_fields_monotone_scenario :
  1 <= 2
  /\ schema_ok (schema scenario) = true
  /\ exists fields2,
      get_sensitive_fields scenario "userinfo" (Some 2) = Ok fields2
      /\ incl fields2 ["userPassword"; "city"].
Proof.
  split; [lia |]. split; [reflexivity |].
  assert (Hle : 1 <= 2) by lia.
  exact (proj2 (get_sensitive_fields_monotone scenario "userinfo" 1 2 Hle)
           ["userPassword"; "city"] eq_refl).
Defined.

Lemma get_retention_policy_default_scenario :
  schema_ok (schema scenario) = true
  /\ exists policy : string,
      get_retention_policy scenario "userinfo" "city" = Ok (JStr policy)
      /\ policy = "RETAIN_INDEFINITE".
Proof.
  split; [reflexivity |].
  destruct (get_retention_policy_default scenario eq_refl "userinfo" "city")
    as [policy [Hrun [Hpolicy _]]].
  exists policy. split; [exact Hrun | exact Hpolicy].
Defined.

Lemma sensitive_at_3_iff_encrypted_scenario :
  schema_ok (schema scenario) = true
  /\ wf_json (schema scenario) = true
  /\ exists fields,
      get_sensitive_fields scenario "userinfo" (Some 3) = Ok fields
      /\ (In "userPassword" fields
          <-> In "userPassword" (map fst (fields_of (schema scenario)
                                            "userinfo"))
              /\ should_field_be_encrypted scenario "userinfo" "userPassword"
                 = Ok true).
Proof.
  split; [reflexivity |]. split; [reflexivity |].
  apply (sensitive_at_3_iff_encrypted scenario eq_refl
           "userinfo" "userPassword").
  reflexivity.
Defined.

Lemma nonpositive_threshold_returns_all_scenario :
  schema_ok (schema scenario) = true
  /\ levels_nonneg (schema scenario) = true
  /\ -1 <= 0
  /\ get_sensitive_fields scenario "userinfo" (Some (-1))
     = Ok ["userPassword"; "city"].
Proof.
  split; [reflexivity |]. split; [reflexivity |]. split; [lia |].
  apply (nonpositive_threshold_returns_all scenario eq_refl "userinfo" (-1)).
  - reflexivity.
  - lia.
Defined.

Lemma queries_total_on_expected_format_scenario :
  schema_ok (schema scenario) = true
  /\ returns (get_service_schema scenario "orders")
  /\ returns (get_field_tags scenario "orders" "total")
  /\ returns (validate_field_exists scenario "orders" [])
  /\ returns (get_sensitive_fields scenario "orders" None)
  /\ returns (should_field_be_encrypted scenario "orders" "total")
  /\ returns (get_retention_policy scenario "orders" "total").
Proof.
  split; [reflexivity |].
  apply (queries_total_on_expected_format scenario eq_refl
           "orders" "total" [] None).
Defined.

Lemma unknown_service_defaults_scenario :
  Py.getitem (schema scenario) "services"
  = Ok (JObj (services_of scenario_doc))
  /\ Py.contains (services_of scenario_doc) "orders" = false
  /\ get_service_schema scenario "orders" = Ok (JObj [])
  /\ get_field_tags scenario "orders" "total" = Ok (JObj []).
Proof.
  split; [reflexivity |]. split; [reflexivity |].
  destruct (unknown_service_defaults scenario (services_of scenario_doc)
              "orders" eq_refl eq_refl) as [Hs Ht].
  split; [exact Hs |].
  destruct (Ht "total") as [tags [Hrun [-> _]]]. exact Hrun.
Defined.

Lemma construction_checks_no_shape_disk :
  disk "missing.json" = NoSuchFile
  /\ disk "bad_services.json" = Loads scalar_services_doc
  /\ __init__ disk (Some "missing.json") = Raise FileNotFoundError
  /\ __init__ disk (Some "bad_services.json")
     = Ok {| schema := scalar_services_doc |}.
Proof.
  split; [reflexivity |]. split; [reflexivity |].
  destruct (construction_checks_no_shape disk "missing.json"
              "bad_services.json" eq_refl eq_refl) as [Hm [_ [_ Hall]]].
  split; [exact Hm |].
  exact (Hall "bad_services.json" scalar_services_doc eq_refl).
Defined.

(** ** Beyond the claims: the scans on any document *)

Lemma scan_sensitive (self : TagValidator) (service_name : string)
  (min_level : Z) :
  get_sensitive_fields self service_name (Some min_level)
  = (its <- field_items self service_name ;;
     collect_sensitive its min_level []).
Proof.
  unfold get_sensitive_fields, field_items.
  destruct (get_service_schema self service_name) as [svc | e]; simpl;
    [| reflexivity].
  destruct (Py.get svc "fields" (JObj [])) as [fields | e]; reflexivity.
Qed.

Lemma scan_required (self : TagValidator) (service_name : string)
  (data : pydict) :
  validate_field_exists self service_name data
  = (its <- field_items self service_name ;;
     required_fields <- required_names its ;;
     Ok (collect_missing required_fields data [])).
Proof.
  unfold validate_field_exists, field_items.
  destruct (get_service_schema self service_name) as [svc | e]; simpl;
    [| reflexivity].
  destruct (Py.get svc "fields" (JObj [])) as [fields | e]; reflexivity.
Qed.

(** When the walk returns, what it returns is the declared field mapping. *)
Lemma field_items_declared (self : TagValidator) (service_name : string)
  (its : pydict) :
  field_items self service_name = Ok its ->
  its = fields_of (schema self) service_name.
Proof.
  unfold field_items, get_service_schema, fields_of, services_of.
  destruct (schema self) as [| | | | | | d]; simpl; try discriminate.
  destruct (Py.lookup "services" d) as [services |]; simpl;
    [| discriminate].
  destruct services as [| | | | | | svcs]; simpl; try discriminate.
  destruct (Py.lookup service_name svcs) as [svc |]; simpl.
  - destruct svc as [| | | | | | sd]; simpl; try discriminate.
    destruct (Py.lookup "fields" sd) as [fields |]; simpl.
    + destruct fields; simpl; try discriminate. now intros [= <-].
    + now intros [= <-].
  - now intros [= <-].
Qed.

Lemma field_items_tags (self : TagValidator) (service_name : string)
  (its : pydict) (field_name : string) :
  field_items self service_name = Ok its ->
  get_field_tags self service_name field_name
  = Ok (match Py.lookup field_name its with
        | Some info => info
        | None => JObj []
        end).
Proof.
  unfold field_items, get_field_tags.
  destruct (get_service_schema self service_name) as [svc | e]; simpl;
    [| discriminate].
  destruct (Py.get svc "fields" (JObj [])) as [fields | e]; simpl;
    [| discriminate].
  destruct fields; simpl; try discriminate. intros [= <-].
  now destruct (Py.lookup field_name entries).
Qed.

Lemma collect_sensitive_reaches (its : pydict) (min_level : Z) :
  forall acc fields,
    collect_sensitive its min_level acc = Ok fields ->
    fields
    = (acc ++ map fst (filter (fun kv => reaches min_level (snd kv)) its))%list.
Proof.
  induction its as [| [name info] rest IH]; simpl; intros acc fields.
  - intros [= <-]. now rewrite app_nil_r.
  - unfold reaches.
    destruct (Py.get info "piiLevel" (JInt 0)) as [level | e]; simpl;
      [| discriminate].
    destruct (Py.ge level min_level) as [hit | e]; simpl; [| discriminate].
    intros H. apply IH in H. subst fields.
    destruct hit; simpl; [now rewrite <- app_assoc | reflexivity].
Qed.

Lemma collect_sensitive_returns (its : pydict) (min_level : Z) :
  forall acc,
    returns (collect_sensitive its min_level acc)
    <-> forallb (fun kv => level_readable (snd kv)) its = true.
Proof.
  induction its as [| [name info] rest IH]; simpl; intros acc.
  - split; [reflexivity | intros _; now eexists].
  - destruct info as [| | | | | | d]; simpl;
      try (split; [intros [a Ha]; discriminate Ha | discriminate]).
    destruct (Py.lookup "piiLevel" d) as [level |]; simpl.
    + destruct level; simpl; try apply IH;
        (split; [intros [a Ha]; discriminate Ha | discriminate]).
    + apply IH.
Qed.

Lemma required_names_marked (its : pydict) (names : list string) :
  required_names its = Ok names ->
  names = map fst (filter (fun kv => marked_required (snd kv)) its).
Proof.
  revert names.
  induction its as [| [name info] rest IH]; simpl; intros names.
  - now intros [= <-].
  - unfold marked_required.
    destruct (Py.get info "required" (JBool false)) as [r | e]; simpl;
      [| discriminate].
    destruct (required_names rest) as [names' | e]; simpl; [| discriminate].
    intros [= <-]. rewrite (IH names' eq_refl).
    now destruct (Py.truthy r).
Qed.

Lemma required_names_returns (its : pydict) :
  returns (required_names its)
  <-> forallb (fun kv => is_object (snd kv)) its = true.
Proof.
  induction its as [| [name info] rest IH]; simpl.
  - split; [reflexivity | intros _; now eexists].
  - destruct info as [| | | | | | d]; simpl;
      try (split; [intros [a Ha]; discriminate Ha | discriminate]).
    rewrite <- IH.
    destruct (Py.lookup "required" d) as [r |]; simpl;
      (split; intros [a Ha];
       [destruct (required_names rest) as [names |]; simpl in Ha;
        [now eexists | discriminate Ha]
       | rewrite Ha; simpl; now eexists]).
Qed.

Lemma level_readable_object (its : pydict) :
  forallb (fun kv => level_readable (snd kv)) its = true ->
  forallb (fun kv => is_object (snd kv)) its = true.
Proof.
  rewrite !forallb_forall. intros H kv Hin. specialize (H kv Hin).
  now destruct (snd kv).
Qed.

Lemma distinct_NoDup (keys : list string) :
  distinct keys = true -> NoDup keys.
Proof.
  induction keys as [| k rest IH]; simpl; intros H; constructor.
  - apply andb_prop in H as [H _]. apply negb_true_iff in H.
    intros Hin. apply existsb_eqb_In in Hin. congruence.
  - apply andb_prop in H as [_ H]. now apply IH.
Qed.

Lemma NoDup_filter_keys (p : string * json -> bool) (its : pydict) :
  NoDup (map fst its) -> NoDup (map fst (filter p its)).
Proof.
  induction its as [| kv rest IH]; simpl; intros H; [constructor |].
  inversion H as [| k ks Hnotin Hrest]; subst.
  destruct (p kv); simpl; [| now apply IH].
  constructor; [| now apply IH].
  intros Hin. apply Hnotin. apply in_map_iff in Hin as [kv' [Hk Hin]].
  apply filter_In in Hin as [Hin _]. rewrite <- Hk. now apply in_map.
Qed.

Lemma filter_keys_declared (p : string * json -> bool) (its : pydict)
  (k : string) :
  In k (map fst (filter p its)) -> In k (map fst its).
Proof.
  intros Hin. apply in_map_iff in Hin as [kv [Hk Hin]].
  apply filter_In in Hin as [Hin _]. rewrite <- Hk. now apply in_map.
Qed.

Lemma field_items_steps (self : TagValidator) (service_name : string)
  (its : pydict) :
  field_items self service_name = Ok its
  <-> exists svc,
      get_service_schema self service_name = Ok svc
      /\ Py.get svc "fields" (JObj []) = Ok (JObj its).
Proof.
  unfold field_items. split.
  - destruct (get_service_schema self service_name) as [svc | e]; simpl;
      [| discriminate].
    destruct (Py.get svc "fields" (JObj [])) as [fields | e] eqn:Hf; simpl;
      [| discriminate].
    destruct fields; simpl; try discriminate. intros [= <-].
    now exists svc.
  - intros [svc [-> Hf]]. simpl. now rewrite Hf.
Qed.

Lemma field_tags_items (self : TagValidator)
  (service_name field_name : string) (tags : json) :
  get_field_tags self service_name field_name = Ok tags ->
  exists its,
    field_items self service_name = Ok its
    /\ tags = match Py.lookup field_name its with
              | Some info => info
              | None => JObj []
              end.
Proof.
  unfold get_field_tags, field_items.
  destruct (get_service_schema self service_name) as [svc | e]; simpl;
    [| discriminate].
  destruct (Py.get svc "fields" (JObj [])) as [fields | e]; simpl;
    [| discriminate].
  destruct fields as [| | | | | | its]; simpl; try discriminate.
  intros H. exists its. split; [reflexivity |].
  destruct (Py.lookup field_name its); now injection H as <-.
Qed.

(** A record passes a positive threshold only through a [piiLevel] of its
    own: the default 0 is below it. *)
Lemma reaches_positive (min_level : Z) (info : json) :
  0 < min_level ->
  reaches min_level info = true ->
  exists level,
    Py.getitem info "piiLevel" = Ok level
    /\ Py.ge level min_level = Ok true.
Proof.
  intros Hpos. unfold reaches.
  destruct info as [| | | | | | d]; simpl; try discriminate.
  destruct (Py.lookup "piiLevel" d) as [level |]; simpl.
  - destruct (Py.ge level min_level) as [hit | e] eqn:Hge;
      [| discriminate].
    intros ->. now exists level.
  - intros H. apply Z.leb_le in H. lia.
Qed.

(** X1. A document without a usable [services] mapping disables the whole
    validator: when [get_service_schema] raises for one service name, it
    raises the same exception for every service name, and so does every
    other query, whatever its arguments. *)
Theorem service_error_reaches_every_query (self : TagValidator)
  (service_name : string) (e : exn) :
  get_service_schema self service_name = Raise e ->
  forall (other field_name : string) (data : pydict) (min_level : option Z),
    get_service_schema self other = Raise e
    /\ get_field_tags self other field_name = Raise e
    /\ validate_field_exists self other data = Raise e
    /\ get_sensitive_fields self other min_level = Raise e
    /\ should_field_be_encrypted self other field_name = Raise e
    /\ get_retention_policy self other field_name = Raise e.
Proof.
  intros Hraise other field_name data min_level.
  assert (Hother : get_service_schema self other = Raise e).
  { revert Hraise. unfold get_service_schema.
    destruct (Py.getitem (schema self) "services") as [services | e'];
      simpl; [| tauto].
    destruct services as [| | | | | | svcs]; simpl; try tauto.
    destruct (Py.lookup service_name svcs); discriminate. }
  unfold should_field_be_encrypted, get_retention_policy, get_field_tags,
    validate_field_exists, get_sensitive_fields.
  rewrite Hother. simpl. tauto.
Qed.

(** X2. The outcome of [get_service_schema] is decided by the shape of the
    document alone: it returns exactly when the document is an object whose
    [services] entry is an object; it raises [TypeError] exactly when the
    document is not an object, [KeyError] exactly when the object has no
    [services] key, and [AttributeError] exactly when [services] is there
    but is not an object. *)
Theorem get_service_schema_outcome (self : TagValidator)
  (service_name : string) :
  (returns (get_service_schema self service_name)
   <-> exists d svcs,
       schema self = JObj d /\ Py.lookup "services" d = Some (JObj svcs))
  /\ (get_service_schema self service_name = Raise TypeError
      <-> is_object (schema self) = false)
  /\ (get_service_schema self service_name = Raise KeyError
      <-> exists d, schema self = JObj d /\ Py.lookup "services" d = None)
  /\ (get_service_schema self service_name = Raise AttributeError
      <-> exists d services,
          schema self = JObj d
          /\ Py.lookup "services" d = Some services
          /\ is_object services = false).
Proof.
  unfold get_service_schema, returns.
  destruct (schema self) as [| | | | | | d]; simpl;
    try (split; [| split; [| split]]; split;
         solve [ intros; reflexivity | discriminate
               | intros [a Ha]; discriminate Ha
               | intros [? [? [H _]]]; discriminate H
               | intros [? [H _]]; discriminate H ]).
  destruct (Py.lookup "services" d) as [services |] eqn:Hs; simpl.
  - destruct services as [| | | | | | svcs]; simpl;
      try (split; [| split; [| split]]; split;
           solve [ intros; reflexivity | discriminate
                 | intros [a Ha]; discriminate Ha
                 | intros [? [? [[= <-] H]]]; congruence
                 | intros [? [[= <-] H]]; congruence
                 | intros _; exists d; eexists; repeat split;
                   [exact Hs | reflexivity] ]).
    assert (Hret : exists a,
               match Py.lookup service_name svcs with
               | Some v => Ok v
               | None => Ok (JObj [])
               end = Ok a).
    { destruct (Py.lookup service_name svcs); now eexists. }
    destruct Hret as [a Ha]. rewrite Ha.
    split; [| split; [| split]]; split;
      try solve [ discriminate
                | intros _; now exists a
                | intros _; now exists d, svcs
                | intros [? [[= <-] H]]; congruence ].
    intros [? [? [[= <-] [H1 H2]]]]. rewrite Hs in H1.
    injection H1 as <-. discriminate H2.
  - split; [| split; [| split]]; split;
      solve [ intros; reflexivity | discriminate
            | intros [a Ha]; discriminate Ha
            | intros [? [? [[= <-] H]]]; congruence
            | intros [? [? [[= <-] [H _]]]]; congruence
            | intros _; now exists d ].
Qed.

Lemma sensitive_returns_steps (self : TagValidator) (service_name : string)
  (min_level : option Z) :
  returns (get_sensitive_fields self service_name min_level)
  <-> exists svc its,
      get_service_schema self service_name = Ok svc
      /\ Py.get svc "fields" (JObj []) = Ok (JObj its)
      /\ forallb (fun kv => level_readable (snd kv)) its = true.
Proof.
  assert (Hm : get_sensitive_fields self service_name min_level
               = get_sensitive_fields self service_name
                   (Some (match min_level with
                          | Some n => n
                          | None => default_min_level
                          end))) by now destruct min_level.
  rewrite Hm, scan_sensitive. split.
  - destruct (field_items self service_name) as [its | e] eqn:Hits; simpl;
      [| intros [a Ha]; discriminate Ha].
    intros Hret. apply field_items_steps in Hits as [svc [Hs Hf]].
    exists svc, its. repeat split; try assumption.
    exact (proj1 (collect_sensitive_returns _ _ _) Hret).
  - intros [svc [its [Hs [Hf Hall]]]].
    assert (Hits : field_items self service_name = Ok its).
    { apply field_items_steps. now exists svc. }
    rewrite Hits. simpl.
    exact (proj2 (collect_sensitive_returns _ _ _) Hall).
Qed.

(** X3. [get_sensitive_fields] returns exactly when the service descriptor
    and its [fields] entry are objects (or absent) and every field record
    is an object whose [piiLevel], when present, is a number (int, bool or
    float).  Whether it returns does not depend on the threshold. *)
Theorem get_sensitive_fields_returns_iff (self : TagValidator)
  (service_name : string) (min_level : option Z) :
  (returns (get_sensitive_fields self service_name min_level)
   <-> exists svc its,
       get_service_schema self service_name = Ok svc
       /\ Py.get svc "fields" (JObj []) = Ok (JObj its)
       /\ forallb (fun kv => level_readable (snd kv)) its = true)
  /\ (forall other : option Z,
         returns (get_sensitive_fields self service_name min_level)
         <-> returns (get_sensitive_fields self service_name other)).
Proof.
  split; [apply sensitive_returns_steps |].
  intros other. now rewrite !sensitive_returns_steps.
Qed.

(** X4. [validate_field_exists] returns exactly when the service descriptor
    and its [fields] entry are objects (or absent) and every field record is
    an object; the candidate record plays no part in that.  It asks less of
    the document than [get_sensitive_fields]: wherever that query returns,
    validation returns for every candidate record. *)
Theorem validate_field_exists_returns_iff (self : TagValidator)
  (service_name : string) (data : pydict) :
  (returns (validate_field_exists self service_name data)
   <-> exists svc its,
       get_service_schema self service_name = Ok svc
       /\ Py.get svc "fields" (JObj []) = Ok (JObj its)
       /\ forallb (fun kv => is_object (snd kv)) its = true)
  /\ (forall min_level : option Z,
         returns (get_sensitive_fields self service_name min_level) ->
         returns (validate_field_exists self service_name data)).
Proof.
  assert (Hiff : returns (validate_field_exists self service_name data)
                 <-> exists svc its,
                     get_service_schema self service_name = Ok svc
                     /\ Py.get svc "fields" (JObj []) = Ok (JObj its)
                     /\ forallb (fun kv => is_object (snd kv)) its = true).
  { rewrite scan_required. split.
    - destruct (field_items self service_name) as [its | e] eqn:Hits; simpl;
        [| intros [a Ha]; discriminate Ha].
      intros [a Ha]. apply field_items_steps in Hits as [svc [Hs Hf]].
      exists svc, its. repeat split; try assumption.
      apply required_names_returns.
      destruct (required_names its) as [names | e]; [now eexists |].
      discriminate Ha.
    - intros [svc [its [Hs [Hf Hall]]]].
      assert (Hits : field_items self service_name = Ok its).
      { apply field_items_steps. now exists svc. }
      rewrite Hits. simpl.
      apply required_names_returns in Hall as [names ->]. simpl.
      now eexists. }
  split; [exact Hiff |].
  intros min_level Hret. apply Hiff.
  apply sensitive_returns_steps in Hret as [svc [its [Hs [Hf Hall]]]].
  exists svc, its. repeat split; try assumption.
  now apply level_readable_object.
Qed.

(** On any document on which validation returns once, it returns for every
    candidate record, and with the same list of required names. *)
Lemma validate_any_record (self : TagValidator) (service_name : string)
  (data : pydict) (missing : list string) :
  validate_field_exists self service_name data = Ok missing ->
  forall data' : pydict,
    validate_field_exists self service_name data'
    = Ok (filter (fun k => negb (Py.contains data' k))
            (map fst (filter (fun kv => marked_required (snd kv))
                        (fields_of (schema self) service_name)))).
Proof.
  rewrite scan_required. intros Hrun data'. rewrite scan_required.
  destruct (field_items self service_name) as [its | e] eqn:Hits;
    simpl in *; [| discriminate].
  destruct (required_names its) as [names | e] eqn:Hnames; simpl in *;
    [| discriminate].
  rewrite collect_missing_filter. simpl.
  rewrite (required_names_marked _ _ Hnames).
  now rewrite (field_items_declared _ _ _ Hits).
Qed.

Lemma sensitive_any_document (self : TagValidator) (service_name : string)
  (min_level : Z) (fields : list string) :
  get_sensitive_fields self service_name (Some min_level) = Ok fields ->
  field_items self service_name = Ok (fields_of (schema self) service_name)
  /\ fields = map fst (filter (fun kv => reaches min_level (snd kv))
                         (fields_of (schema self) service_name)).
Proof.
  rewrite scan_sensitive.
  destruct (field_items self service_name) as [its | e] eqn:Hits; simpl;
    [| discriminate].
  intros Hrun. apply collect_sensitive_reaches in Hrun. simpl in Hrun.
  rewrite <- (field_items_declared _ _ _ Hits). now split.
Qed.

(** X5. Supplying more keys can only shorten the report: on any document,
    when [validate_field_exists] returns for a record, it returns for every
    record that has at least the same keys, and every field it then reports
    missing was already reported for the smaller record. *)
Theorem validate_field_exists_more_keys (self : TagValidator)
  (service_name : string) (data data' : pydict) (missing : list string) :
  validate_field_exists self service_name data = Ok missing ->
  (forall k, Py.contains data k = true -> Py.contains data' k = true) ->
  exists missing',
    validate_field_exists self service_name data' = Ok missing'
    /\ incl missing' missing.
Proof.
  intros Hrun Hkeys.
  pose proof (validate_any_record _ _ _ _ Hrun) as Hany.
  rewrite (Hany data) in Hrun. injection Hrun as <-.
  eexists. split; [apply Hany |].
  intros k Hin. apply filter_In in Hin as [Hin Hk].
  apply filter_In. split; [exact Hin |].
  apply negb_true_iff. apply negb_true_iff in Hk.
  destruct (Py.contains data k) eqn:Hd; [| reflexivity].
  rewrite (Hkeys k Hd) in Hk. discriminate.
Qed.

(** X6. The report is enough to repair the record: on any document, if
    [validate_field_exists] reports [missing] for a record, then for every
    record that keeps the keys of the first and has the reported names as
    keys too, it returns the empty list. *)
Theorem validate_field_exists_repair (self : TagValidator)
  (service_name : string) (data data' : pydict) (missing : list string) :
  validate_field_exists self service_name data = Ok missing ->
  (forall k, Py.contains data k = true -> Py.contains data' k = true) ->
  (forall k, In k missing -> Py.contains data' k = true) ->
  validate_field_exists self service_name data' = Ok [].
Proof.
  intros Hrun Hkeys Hadded.
  pose proof (validate_any_record _ _ _ _ Hrun) as Hany.
  rewrite (Hany data) in Hrun. injection Hrun as <-.
  rewrite (Hany data'). f_equal. apply filter_nil_iff.
  intros k Hin. apply negb_false_iff.
  destruct (Py.contains data k) eqn:Hd; [now apply Hkeys |].
  apply Hadded. apply filter_In. split; [exact Hin |].
  now rewrite Hd.
Qed.

(** X7. What [validate_field_exists] reports, on any document: every
    reported name is a declared field of the service whose [required] entry
    is truthy and is not a key of the record, and no name is reported
    twice. *)
Theorem validate_field_exists_report (self : TagValidator)
  (service_name : string) (data : pydict) (missing : list string) :
  wf_json (schema self) = true ->
  validate_field_exists self service_name data = Ok missing ->
  NoDup missing
  /\ forall k, In k missing ->
       Py.contains data k = false
       /\ exists info r,
           Py.lookup k (fields_of (schema self) service_name) = Some info
           /\ get_field_tags self service_name k = Ok info
           /\ Py.get info "required" (JBool false) = Ok r
           /\ Py.truthy r = true.
Proof.
  intros Hwf Hrun.
  pose proof (fields_of_distinct _ service_name Hwf) as Hkeys.
  assert (Hits : field_items self service_name
                 = Ok (fields_of (schema self) service_name)).
  { rewrite scan_required in Hrun.
    destruct (field_items self service_name) as [its | e] eqn:Hits;
      [| discriminate].
    now rewrite <- (field_items_declared _ _ _ Hits). }
  rewrite (validate_any_record _ _ _ _ Hrun data) in Hrun.
  injection Hrun as <-. split.
  - apply NoDup_filter. apply NoDup_filter_keys. now apply distinct_NoDup.
  - intros k Hin. apply filter_In in Hin as [Hin Hk].
    split; [now apply negb_true_iff |].
    apply in_map_iff in Hin as [[k' info] [Hk' Hin]]. simpl in Hk'.
    subst k'. apply filter_In in Hin as [Hin Hreq]. simpl in Hreq.
    pose proof (In_lookup _ _ _ Hkeys Hin) as Hlook.
    unfold marked_required in Hreq.
    destruct (Py.get info "required" (JBool false)) as [r | e] eqn:Hr;
      [| discriminate].
    exists info, r. repeat split; try assumption.
    rewrite (field_items_tags _ _ _ k Hits). now rewrite Hlook.
Qed.

(** X8. What [get_sensitive_fields] returns, on any document: every
    returned name is a declared field of the service whose record
    [get_field_tags] finds and whose level passes the comparison with the
    threshold; no name is returned twice, and never more names than the
    service declares. *)
Theorem get_sensitive_fields_report (self : TagValidator)
  (service_name : string) (min_level : Z) (fields : list string) :
  wf_json (schema self) = true ->
  get_sensitive_fields self service_name (Some min_level) = Ok fields ->
  NoDup fields
  /\ (List.length fields
      <= List.length (fields_of (schema self) service_name))%nat
  /\ forall k, In k fields ->
       exists info level,
         Py.lookup k (fields_of (schema self) service_name) = Some info
         /\ get_field_tags self service_name k = Ok info
         /\ Py.get info "piiLevel" (JInt 0) = Ok level
         /\ Py.ge level min_level = Ok true.
Proof.
  intros Hwf Hrun.
  pose proof (fields_of_distinct _ service_name Hwf) as Hkeys.
  destruct (sensitive_any_document _ _ _ _ Hrun) as [Hits ->].
  split; [| split].
  - apply NoDup_filter_keys. now apply distinct_NoDup.
  - rewrite length_map. apply filter_length_le.
  - intros k Hin.
    apply in_map_iff in Hin as [[k' info] [Hk' Hin]]. simpl in Hk'.
    subst k'. apply filter_In in Hin as [Hin Hreach]. simpl in Hreach.
    pose proof (In_lookup _ _ _ Hkeys Hin) as Hlook.
    unfold reaches in Hreach.
    destruct (Py.get info "piiLevel" (JInt 0)) as [level | e] eqn:Hl;
      [| discriminate].
    destruct (Py.ge level min_level) as [hit | e] eqn:Hge; [| discriminate].
    subst hit. exists info, level. repeat split; try assumption.
    rewrite (field_items_tags _ _ _ k Hits). now rewrite Hlook.
Qed.

Lemma read_levels_all (self : TagValidator) (service_name : string)
  (min_level : Z) (names : list string) :
  (forall k, In k names ->
     exists tags level,
       get_field_tags self service_name k = Ok tags
       /\ Py.getitem tags "piiLevel" = Ok level
       /\ Py.ge level min_level = Ok true) ->
  exists levels,
    read_levels self service_name names = Ok levels
    /\ List.length levels = List.length names
    /\ Forall (fun level => Py.ge level min_level = Ok true) levels.
Proof.
  induction names as [| k rest IH]; simpl; intros Hall.
  - exists []. repeat split. constructor.
  - destruct (Hall k (or_introl eq_refl)) as [tags [level [Ht [Hl Hge]]]].
    destruct IH as [levels [Hrun [Hlen Hfor]]].
    { intros k' Hin. apply Hall. now right. }
    rewrite Ht. simpl. rewrite Hl. simpl. rewrite Hrun. simpl.
    exists (level :: levels). repeat split.
    + simpl. now rewrite Hlen.
    + now constructor.
Qed.

(** X9. A positive threshold selects only fields that carry a [piiLevel]
    of their own (the default 0 is below it), so the caller's
    [get_field_tags(service, field)['piiLevel']] on each returned field
    never raises [KeyError]: it yields one level per field, each passing
    the threshold. *)
Theorem sensitive_fields_have_explicit_levels (self : TagValidator)
  (service_name : string) (min_level : Z) (fields : list string) :
  0 < min_level ->
  wf_json (schema self) = true ->
  get_sensitive_fields self service_name (Some min_level) = Ok fields ->
  exists levels,
    read_levels self service_name fields = Ok levels
    /\ List.length levels = List.length fields
    /\ Forall (fun level => Py.ge level min_level = Ok true) levels.
Proof.
  intros Hpos Hwf Hrun.
  pose proof (fields_of_distinct _ service_name Hwf) as Hkeys.
  destruct (sensitive_any_document _ _ _ _ Hrun) as [Hits ->].
  apply read_levels_all. intros k Hin.
  apply in_map_iff in Hin as [[k' info] [Hk' Hin]]. simpl in Hk'. subst k'.
  apply filter_In in Hin as [Hin Hreach]. simpl in Hreach.
  destruct (reaches_positive _ _ Hpos Hreach) as [level [Hl Hge]].
  exists info, level. repeat split; try assumption.
  rewrite (field_items_tags _ _ _ k Hits).
  now rewrite (In_lookup _ _ _ Hkeys Hin).
Qed.

(** With a threshold of 0 the same loop can raise: a declared field
    without [piiLevel] is returned and has no level to read. *)
Example nonpositive_threshold_level_missing :
  get_sensitive_fields {| schema := negative_level_doc |} "ledger" (Some 0)
  = Ok ["memo"]
  /\ read_levels {| schema := negative_level_doc |} "ledger" ["memo"]
     = Raise KeyError.
Proof. split; reflexivity. Qed.

(** X10. [should_field_be_encrypted] never answers true for a field the
    document does not declare, nor for one without a [piiLevel] of its own:
    on any document, a true answer means the service declares the field and
    its record holds a level that passes [>= 3]. *)
Theorem encrypted_field_is_declared (self : TagValidator)
  (service_name field_name : string) :
  should_field_be_encrypted self service_name field_name = Ok true ->
  exists info level,
    Py.lookup field_name (fields_of (schema self) service_name) = Some info
    /\ get_field_tags self service_name field_name = Ok info
    /\ Py.getitem info "piiLevel" = Ok level
    /\ Py.ge level 3 = Ok true.
Proof.
  unfold should_field_be_encrypted.
  destruct (get_field_tags self service_name field_name) as [tags | e]
    eqn:Ht; simpl; [| discriminate].
  intros Hrun.
  assert (Hreach : reaches 3 tags = true).
  { unfold reaches.
    destruct (Py.get tags "piiLevel" (JInt 0)) as [level | e]; simpl in *;
      [| discriminate].
    now rewrite Hrun. }
  assert (Hpos : 0 < 3) by lia.
  destruct (reaches_positive _ _ Hpos Hreach) as [level [Hl Hge]].
  destruct (field_tags_items _ _ _ _ Ht) as [its [Hits Htags]].
  rewrite (field_items_declared _ _ _ Hits) in Htags.
  destruct (Py.lookup field_name (fields_of (schema self) service_name))
    as [info |].
  - subst tags. now exists info, level.
  - subst tags. discriminate Hl.
Qed.

(** X11. The list and the pointwise test agree at every threshold: on a
    document of the expected format, a field name is returned by
    [get_sensitive_fields(service, min_level)] if and only if the service
    declares it and the [piiLevel] of [get_field_tags(service, field)]
    (0 when absent) is at least [min_level]; for a positive threshold the
    level test alone decides. *)
Theorem sensitive_iff_declared_and_level (self : TagValidator)
  (service_name field_name : string) (min_level : Z) :
  schema_ok (schema self) = true ->
  wf_json (schema self) = true ->
  exists fields tags,
    get_sensitive_fields self service_name (Some min_level) = Ok fields
    /\ get_field_tags self service_name field_name = Ok tags
    /\ (In field_name fields
        <-> In field_name (map fst (fields_of (schema self) service_name))
            /\ min_level <= pii_level tags)
    /\ (0 < min_level ->
        (In field_name fields <-> min_level <= pii_level tags)).
Proof.
  intros Hok Hwf.
  pose proof (fields_of_distinct _ service_name Hwf) as Hkeys.
  destruct (field_tags self service_name field_name Hok)
    as [tags [Ht [_ Heq]]].
  exists (fields_at_least (schema self) service_name min_level), tags.
  split; [now apply sensitive_fields_filter |]. split; [exact Ht |].
  assert (Hiff : In field_name
                   (fields_at_least (schema self) service_name min_level)
                 <-> In field_name
                       (map fst (fields_of (schema self) service_name))
                     /\ min_level <= pii_level tags).
  { rewrite In_fields_at_least. split.
    - intros [info [Hin Hlv]]. split.
      + apply (in_map fst) in Hin. exact Hin.
      + rewrite (In_lookup _ _ _ Hkeys Hin) in Heq. now subst tags.
    - intros [Hdecl Hlv].
      destruct (Py.lookup field_name (fields_of (schema self) service_name))
        as [info |] eqn:Hlook.
      + subst tags. exists info. split; [now apply lookup_In | assumption].
      + apply lookup_None in Hlook. contradiction. }
  split; [exact Hiff |].
  intros Hpos. rewrite Hiff. split; [tauto |].
  intros Hlv. split; [| exact Hlv].
  destruct (Py.lookup field_name (fields_of (schema self) service_name))
    as [info |] eqn:Hlook.
  - apply lookup_In in Hlook. apply (in_map fst) in Hlook. exact Hlook.
  - subst tags. unfold pii_level in Hlv. simpl in Hlv. lia.
Qed.

(** X12. A query about one service reads that service's entry and nothing
    else: two documents whose [services] mappings hold the same entry (or
    both none) under a name give the same answer to every query about that
    name, whatever else they contain. *)
Theorem queries_read_one_service (self other : TagValidator)
  (services services' : pydict) (service_name : string) :
  Py.getitem (schema self) "services" = Ok (JObj services) ->
  Py.getitem (schema other) "services" = Ok (JObj services') ->
  Py.lookup service_name services = Py.lookup service_name services' ->
  forall (field_name : string) (data : pydict) (min_level : option Z),
    get_service_schema self service_name
    = get_service_schema other service_name
    /\ get_field_tags self service_name field_name
       = get_field_tags other service_name field_name
    /\ validate_field_exists self service_name data
       = validate_field_exists other service_name data
    /\ get_sensitive_fields self service_name min_level
       = get_sensitive_fields other service_name min_level
    /\ should_field_be_encrypted self service_name field_name
       = should_field_be_encrypted other service_name field_name
    /\ get_retention_policy self service_name field_name
       = get_retention_policy other service_name field_name.
Proof.
  intros Hs Hs' Hentry field_name data min_level.
  assert (Hsvc : get_service_schema self service_name
                 = get_service_schema other service_name).
  { unfold get_service_schema. rewrite Hs, Hs'. simpl. now rewrite Hentry. }
  unfold should_field_be_encrypted, get_retention_policy, get_field_tags,
    validate_field_exists, get_sensitive_fields.
  rewrite Hsvc. tauto.
Qed.

Lemma summary_entry_object (field_name : string) (info : json) :
  (returns (summary_entry field_name info) <-> is_object info = true)
  /\ forall entry,
      summary_entry field_name info = Ok entry ->
      entry = summary_of (field_name, info).
Proof.
  unfold summary_entry, summary_of, entry_or_null, field_entry, returns.
  destruct info as [| | | | | | d]; simpl;
    try (split; [split; [intros [a Ha]; discriminate Ha | discriminate]
                | discriminate]).
  destruct (Py.lookup "piiLevel" d), (Py.lookup "piiLevelName" d),
    (Py.lookup "retention" d), (Py.lookup "description" d); simpl;
    (split; [split; [reflexivity | intros _; now eexists]
            | now intros entry [= <-]]).
Qed.

Lemma collect_summary_map (its : pydict) :
  forall acc summary,
    collect_summary its acc = Ok summary ->
    summary = (acc ++ map summary_of its)%list.
Proof.
  induction its as [| [name info] rest IH]; simpl; intros acc summary.
  - intros [= <-]. now rewrite app_nil_r.
  - destruct (summary_entry name info) as [entry | e] eqn:He; simpl;
      [| discriminate].
    apply (proj2 (summary_entry_object name info)) in He. subst entry.
    intros H. apply IH in H. subst summary. now rewrite <- app_assoc.
Qed.

Lemma collect_summary_returns (its : pydict) :
  forall acc,
    returns (collect_summary its acc)
    <-> forallb (fun kv => is_object (snd kv)) its = true.
Proof.
  induction its as [| [name info] rest IH]; simpl; intros acc.
  - split; [reflexivity | intros _; now eexists].
  - pose proof (proj1 (summary_entry_object name info)) as Hobj.
    destruct (summary_entry name info) as [entry | e]; simpl.
    + assert (Hi : is_object info = true) by (apply Hobj; now eexists).
      rewrite Hi. simpl. apply IH.
    + destruct (is_object info); simpl.
      * destruct (proj2 Hobj eq_refl) as [a Ha]. discriminate Ha.
      * split; [intros [a Ha]; discriminate Ha | discriminate].
Qed.

(** X13. The classification summary a caller builds for [userinfo] lists
    the declared fields one entry each, in declaration order, and shows for
    each of the four attributes the stored value or [None] when the record
    lacks it (not the defaults the validator's own queries apply).  It
    returns on exactly the documents on which [validate_field_exists]
    returns for [userinfo]. *)
Theorem field_classification_summary_entries (self : TagValidator) :
  (forall data : pydict,
      returns (field_classification_summary self)
      <-> returns (validate_field_exists self "userinfo" data))
  /\ forall summary,
      field_classification_summary self = Ok summary ->
      summary = map summary_of (fields_of (schema self) "userinfo").
Proof.
  assert (Hscan : field_classification_summary self
                  = (its <- field_items self "userinfo" ;;
                     collect_summary its [])).
  { unfold field_classification_summary, field_items.
    destruct (get_service_schema self "userinfo") as [svc | e]; simpl;
      [| reflexivity].
    destruct (Py.get svc "fields" (JObj [])) as [fields | e]; reflexivity. }
  rewrite Hscan. split.
  - intros data. rewrite scan_required.
    destruct (field_items self "userinfo") as [its | e]; simpl.
    + rewrite collect_summary_returns, <- required_names_returns.
      destruct (required_names its) as [names | e]; simpl;
        split; intros [a Ha]; try discriminate Ha; now eexists.
    + split; intros [a Ha]; discriminate Ha.
  - intros summary.
    destruct (field_items self "userinfo") as [its | e] eqn:Hits; simpl;
      [| discriminate].
    intros H. apply collect_summary_map in H. simpl in H.
    now rewrite <- (field_items_declared _ _ _ Hits).
Qed.

(** ** These theorems at concrete validators *)

Lemma service_error_reaches_every_query_empty :
  get_service_schema {| schema := JObj [] |} "userinfo" = Raise KeyError
  /\ get_field_tags {| schema := JObj [] |} "orders" "total" = Raise KeyError
  /\ get_sensitive_fields {| schema := JObj [] |} "orders" None
     = Raise KeyError.
Proof.
  split; [reflexivity |].
  destruct (service_error_reaches_every_query {| schema := JObj [] |}
              "userinfo" KeyError eq_refl "orders" "total" [] None)
    as [_ [Ht [_ [Hs _]]]].
  split; [exact Ht | exact Hs].
Defined.

Lemma validate_field_exists_returns_iff_scenario :
  returns (get_sensitive_fields scenario "userinfo" None)
  /\ returns (validate_field_exists scenario "userinfo" []).
Proof.
  assert (Hret : returns (get_sensitive_fields scenario "userinfo" None))
    by (eexists; reflexivity).
  split; [exact Hret |].
  exact (proj2 (validate_field_exists_returns_iff scenario "userinfo" [])
           None Hret).
Defined.

Lemma validate_field_exists_more_keys_scenario :
  validate_field_exists scenario "userinfo" [] = Ok ["userPassword"]
  /\ exists missing',
      validate_field_exists scenario "userinfo" [("city", JStr "Boston")]
      = Ok missing'
      /\ incl missing' ["userPassword"].
Proof.
  split; [reflexivity |].
  apply (validate_field_exists_more_keys scenario "userinfo" []
           [("city", JStr "Boston")] ["userPassword"] eq_refl).
  intros k Hk. discriminate Hk.
Defined.

Lemma validate_field_exists_repair_scenario :
  validate_field_exists scenario "userinfo" [] = Ok ["userPassword"]
  /\ validate_field_exists scenario "userinfo" [("userPassword", JNull)]
     = Ok [].
Proof.
  split; [reflexivity |].
  apply (validate_field_exists_repair scenario "userinfo" []
           [("userPassword", JNull)] ["userPassword"] eq_refl).
  - intros k Hk. discriminate Hk.
  - intros k [<- | []]. reflexivity.
Defined.

Lemma validate_field_exists_report_scenario :
  wf_json (schema scenario) = true
  /\ validate_field_exists scenario "userinfo" [("city", JStr "Boston")]
     = Ok ["userPassword"]
  /\ NoDup ["userPassword"]
  /\ Py.contains [("city", JStr "Boston")] "userPassword" = false.
Proof.
  split; [reflexivity |]. split; [reflexivity |].
  destruct (validate_field_exists_report scenario "userinfo"
              [("city", JStr "Boston")] ["userPassword"] eq_refl eq_refl)
    as [Hnodup Hall].
  split; [exact Hnodup |].
  exact (proj1 (Hall "userPassword" (or_introl eq_refl))).
Defined.

Lemma get_sensitive_fields_report_scenario :
  wf_json (schema scenario) = true
  /\ get_sensitive_fields scenario "userinfo" (Some 1)
     = Ok ["userPassword"; "city"]
  /\ NoDup ["userPassword"; "city"]
  /\ exists info level,
      get_field_tags scenario "userinfo" "city" = Ok info
      /\ Py.get info "piiLevel" (JInt 0) = Ok level
      /\ Py.ge level 1 = Ok true.
Proof.
  split; [reflexivity |]. split; [reflexivity |].
  destruct (get_sensitive_fields_report scenario "userinfo" 1
              ["userPassword"; "city"] eq_refl eq_refl)
    as [Hnodup [_ Hall]].
  split; [exact Hnodup |].
  destruct (Hall "city" (or_intror (or_introl eq_refl)))
    as [info [level [_ [Ht [Hl Hge]]]]].
  exists info, level. repeat split; assumption.
Defined.

Lemma sensitive_fields_have_explicit_levels_scenario :
  0 < 2
  /\ wf_json (schema scenario) = true
  /\ get_sensitive_fields scenario "userinfo" (Some 2) = Ok ["userPassword"]
  /\ exists levels,
      read_levels scenario "userinfo" ["userPassword"] = Ok levels
      /\ List.length levels = 1%nat.
Proof.
  assert (Hpos : 0 < 2) by lia.
  split; [exact Hpos |]. split; [reflexivity |]. split; [reflexivity |].
  destruct (sensitive_fields_have_explicit_levels scenario "userinfo" 2
              ["userPassword"] Hpos eq_refl eq_refl)
    as [levels [Hrun [Hlen _]]].
  exists levels. split; [exact Hrun | exact Hlen].
Defined.

Lemma encrypted_field_is_declared_scenario :
  should_field_be_encrypted scenario "userinfo" "userPassword" = Ok true
  /\ exists info,
      Py.lookup "userPassword" (fields_of (schema scenario) "userinfo")
      = Some info.
Proof.
  split; [reflexivity |].
  destruct (encrypted_field_is_declared scenario "userinfo" "userPassword"
              eq_refl) as [info [_ [Hlook _]]].
  now exists info.
Defined.

Lemma sensitive_iff_declared_and_level_scenario :
  schema_ok (schema scenario) = true
  /\ wf_json (schema scenario) = true
  /\ exists fields tags,
      get_sensitive_fields scenario "userinfo" (Some 2) = Ok fields
      /\ get_field_tags scenario "userinfo" "city" = Ok tags
      /\ (In "city" fields
          <-> In "city" (map fst (fields_of (schema scenario) "userinfo"))
              /\ 2 <= pii_level tags).
Proof.
  split; [reflexivity |]. split; [reflexivity |].
  destruct (sensitive_iff_declared_and_level scenario "userinfo" "city" 2
              eq_refl eq_refl) as [fields [tags [Hf [Ht [Hiff _]]]]].
  now exists fields, tags.
Defined.

Lemma queries_read_one_service_scenario :
  Py.lookup "userinfo" (services_of (schema scenario))
  = Py.lookup "userinfo" (services_of (schema scenario_with_orders))
  /\ get_sensitive_fields scenario "userinfo" None
     = get_sensitive_fields scenario_with_orders "userinfo" None
  /\ validate_field_exists scenario "userinfo" []
     = validate_field_exists scenario_with_orders "userinfo" [].
Proof.
  split; [reflexivity |].
  destruct (queries_read_one_service scenario scenario_with_orders
              (services_of (schema scenario))
              (services_of (schema scenario_with_orders))
              "userinfo" eq_refl eq_refl eq_refl "city" [] None)
    as [_ [_ [Hv [Hs _]]]].
  split; [exact Hs | exact Hv].
Defined.

Lemma field_classification_summary_entries_scenario :
  field_classification_summary scenario
  = Ok [summary_of ("userPassword", password_tags);
        summary_of ("city", city_tags)]
  /\ [summary_of ("userPassword", password_tags);
      summary_of ("city", city_tags)]
     = map summary_of (fields_of (schema scenario) "userinfo").
Proof.
  split; [reflexivity |].
  exact (proj2 (field_classification_summary_entries scenario) _ eq_refl).
Defined.

(** ** Which exceptions the queries can raise *)

Lemma get_raises_attribute (o : json) (k : string) (dflt : json) (e : exn) :
  Py.get o k dflt = Raise e -> e = AttributeError.
Proof.
  destruct o as [| | | | | | d]; simpl; try (now intros [= <-]).
  destruct (Py.lookup k d); discriminate.
Qed.

Lemma ge_raises_type (o : json) (n : Z) (e : exn) :
  Py.ge o n = Raise e -> e = TypeError.
Proof.
  destruct o; simpl; try discriminate; now intros [= <-].
Qed.

Lemma items_raises_attribute (o : json) (e : exn) :
  Py.items o = Raise e -> e = AttributeError.
Proof.
  destruct o; simpl; try discriminate; now intros [= <-].
Qed.

Lemma required_names_raises (its : pydict) (e : exn) :
  required_names its = Raise e -> e = AttributeError.
Proof.
  induction its as [| [name info] rest IH]; simpl; [discriminate |].
  destruct (Py.get info "required" (JBool false)) as [r | e'] eqn:Hr; simpl.
  - destruct (required_names rest) as [names | e'']; simpl;
      [discriminate |].
    intros [= <-]. now apply IH.
  - intros [= <-]. exact (get_raises_attribute _ _ _ _ Hr).
Qed.

Lemma collect_sensitive_raises (its : pydict) (min_level : Z) (e : exn) :
  forall acc,
    collect_sensitive its min_level acc = Raise e ->
    e = AttributeError \/ e = TypeError.
Proof.
  induction its as [| [name info] rest IH]; simpl; intros acc;
    [discriminate |].
  destruct (Py.get info "piiLevel" (JInt 0)) as [level | e'] eqn:Hl; simpl.
  - destruct (Py.ge level min_level) as [hit | e''] eqn:Hge; simpl.
    + apply IH.
    + intros [= <-]. right. exact (ge_raises_type _ _ _ Hge).
  - intros [= <-]. left. exact (get_raises_attribute _ _ _ _ Hl).
Qed.

(** X14. Once [get_service_schema] returns for a service, no query about it
    raises [KeyError] or anything from loading: [get_field_tags],
    [validate_field_exists] and [get_retention_policy] can only raise
    [AttributeError] (a non-object where an object is read), and
    [get_sensitive_fields] and [should_field_be_encrypted] only that or
    [TypeError] (a [piiLevel] that is not a number). *)
Theorem query_exceptions (self : TagValidator) (service_name : string)
  (svc : json) :
  get_service_schema self service_name = Ok svc ->
  forall (field_name : string) (data : pydict) (min_level : option Z)
         (e : exn),
    (get_field_tags self service_name field_name = Raise e ->
     e = AttributeError)
    /\ (validate_field_exists self service_name data = Raise e ->
        e = AttributeError)
    /\ (get_retention_policy self service_name field_name = Raise e ->
        e = AttributeError)
    /\ (get_sensitive_fields self service_name min_level = Raise e ->
        e = AttributeError \/ e = TypeError)
    /\ (should_field_be_encrypted self service_name field_name = Raise e ->
        e = AttributeError \/ e = TypeError).
Proof.
  intros Hs field_name data min_level e.
  assert (Htags : forall e', get_field_tags self service_name field_name
                             = Raise e' -> e' = AttributeError).
  { intros e'. unfold get_field_tags. rewrite Hs. simpl.
    destruct (Py.get svc "fields" (JObj [])) as [fields | e''] eqn:Hf; simpl.
    - apply get_raises_attribute.
    - intros [= <-]. exact (get_raises_attribute _ _ _ _ Hf). }
  split; [apply Htags |]. split; [| split; [| split]].
  - unfold validate_field_exists. rewrite Hs. simpl.
    destruct (Py.get svc "fields" (JObj [])) as [fields | e'] eqn:Hf; simpl.
    + destruct (Py.items fields) as [its | e'] eqn:Hits; simpl.
      * destruct (required_names its) as [names | e'] eqn:Hn; simpl;
          [discriminate |].
        intros [= <-]. exact (required_names_raises _ _ Hn).
      * intros [= <-]. exact (items_raises_attribute _ _ Hits).
    + intros [= <-]. exact (get_raises_attribute _ _ _ _ Hf).
  - unfold get_retention_policy.
    destruct (get_field_tags self service_name field_name) as [tags | e']
      eqn:Ht; simpl.
    + apply get_raises_attribute.
    + intros [= <-]. now apply Htags.
  - unfold get_sensitive_fields. rewrite Hs. simpl.
    destruct (Py.get svc "fields" (JObj [])) as [fields | e'] eqn:Hf; simpl.
    + destruct (Py.items fields) as [its | e'] eqn:Hits; simpl.
      * apply collect_sensitive_raises.
      * intros [= <-]. left. exact (items_raises_attribute _ _ Hits).
    + intros [= <-]. left. exact (get_raises_attribute _ _ _ _ Hf).
  - unfold should_field_be_encrypted.
    destruct (get_field_tags self service_name field_name) as [tags | e']
      eqn:Ht; simpl.
    + destruct (Py.get tags "piiLevel" (JInt 0)) as [level | e'] eqn:Hl;
        simpl.
      * intros Hge. right. exact (ge_raises_type _ _ _ Hge).
      * intros [= <-]. left. exact (get_raises_attribute _ _ _ _ Hl).
    + intros [= <-]. left. now apply Htags.
Qed.

Lemma query_exceptions_wrong_level :
  returns (get_service_schema text_level_validator "userinfo")
  /\ get_sensitive_fields text_level_validator "userinfo" None
     = Raise TypeError
  /\ (TypeError = AttributeError \/ TypeError = TypeError).
Proof.
  split; [eexists; reflexivity |]. split; [reflexivity |].
  exact (proj1 (proj2 (proj2 (proj2
           (query_exceptions text_level_validator "userinfo" _ eq_refl
              "city" [] None TypeError)))) eq_refl).
Defined.

(** X15. The upper end of the threshold: on a document of the expected
    format, [get_sensitive_fields] returns the empty list exactly when every
    declared level of the service (0 when absent) is below the threshold. *)
Theorem get_sensitive_fields_empty_iff (self : TagValidator)
  (service_name : string) (min_level : Z) :
  schema_ok (schema self) = true ->
  (get_sensitive_fields self service_name (Some min_level) = Ok []
   <-> forall field_name info,
       In (field_name, info) (fields_of (schema self) service_name) ->
       pii_level info < min_level).
Proof.
  intros Hok. rewrite (sensitive_fields_filter _ _ _ Hok).
  unfold fields_at_least. split.
  - intros [= Hnil] field_name info Hin.
    apply map_eq_nil in Hnil.
    apply (proj1 (filter_nil_iff _ _) Hnil) in Hin. simpl in Hin.
    apply Z.leb_gt in Hin. exact Hin.
  - intros Hall. f_equal.
    assert (Hnil : filter (fun kv => min_level <=? pii_level (snd kv))
                     (fields_of (schema self) service_name) = []).
    { apply filter_nil_iff. intros [k info] Hin. simpl.
      apply Z.leb_gt. exact (Hall k info Hin). }
    now rewrite Hnil.
Qed.

Lemma get_sensitive_fields_empty_iff_scenario :
  schema_ok (schema scenario) = true
  /\ get_sensitive_fields scenario "userinfo" (Some 5) = Ok []
  /\ pii_level password_tags < 5.
Proof.
  split; [reflexivity |]. split; [reflexivity |].
  apply (proj1 (get_sensitive_fields_empty_iff scenario "userinfo" 5 eq_refl)
           eq_refl "userPassword" password_tags).
  now left.
Defined.

Lemma level_readable_test (info : json) (n : Z) :
  level_readable info = true
  <-> returns (level <- Py.get info "piiLevel" (JInt 0) ;; Py.ge level n).
Proof.
  unfold returns.
  destruct info as [| | | | | | d]; simpl;
    try (split; [discriminate | intros [a Ha]; discriminate Ha]).
  destruct (Py.lookup "piiLevel" d) as [level |]; simpl.
  - destruct level; simpl;
      solve [ split; [intros _; now eexists | reflexivity]
            | split; [discriminate | intros [a Ha]; discriminate Ha] ].
  - split; [intros _; now eexists | reflexivity].
Qed.

(** X16. The scan and the pointwise test succeed together:
    [get_sensitive_fields] returns for a service exactly when
    [should_field_be_encrypted] returns for every field name of that
    service. *)
Theorem scan_returns_iff_every_test_returns (self : TagValidator)
  (service_name : string) (min_level : option Z) :
  wf_json (schema self) = true ->
  (returns (get_sensitive_fields self service_name min_level)
   <-> forall field_name,
       returns (should_field_be_encrypted self service_name field_name)).
Proof.
  intros Hwf. rewrite sensitive_returns_steps. split.
  - intros [svc [its [Hs [Hf Hall]]]] field_name.
    assert (Hits : field_items self service_name = Ok its).
    { apply field_items_steps. now exists svc. }
    unfold should_field_be_encrypted.
    rewrite (field_items_tags _ _ _ field_name Hits). simpl.
    apply level_readable_test.
    destruct (Py.lookup field_name its) as [info |] eqn:Hlook;
      [| reflexivity].
    exact (forallb_lookup level_readable _ _ _ Hall Hlook).
  - intros Hall.
    assert (Htest : forall field_name,
               exists its,
                 field_items self service_name = Ok its
                 /\ level_readable
                      match Py.lookup field_name its with
                      | Some info => info
                      | None => JObj []
                      end = true).
    { intros field_name. specialize (Hall field_name).
      unfold should_field_be_encrypted in Hall.
      destruct (get_field_tags self service_name field_name) as [tags | e]
        eqn:Ht; [| destruct Hall as [a Ha]; discriminate Ha].
      destruct (field_tags_items _ _ _ _ Ht) as [its [Hits Htags]].
      exists its. split; [exact Hits |]. rewrite <- Htags.
      apply (level_readable_test tags 3). exact Hall. }
    destruct (Htest "") as [its [Hits _]].
    apply field_items_steps in Hits as Hsteps.
    destruct Hsteps as [svc [Hs Hf]].
    exists svc, its. repeat split; try assumption.
    pose proof (fields_of_distinct _ service_name Hwf) as Hkeys.
    rewrite <- (field_items_declared _ _ _ Hits) in Hkeys.
    apply forallb_forall. intros [k info] Hin. simpl.
    destruct (Htest k) as [its' [Hits' Hread]].
    rewrite Hits in Hits'. injection Hits' as <-.
    now rewrite (In_lookup _ _ _ Hkeys Hin) in Hread.
Qed.

Lemma scan_returns_iff_every_test_returns_scenario :
  wf_json (schema scenario) = true
  /\ returns (get_sensitive_fields scenario "userinfo" None)
  /\ returns (should_field_be_encrypted scenario "userinfo" "zip").
Proof.
  assert (Hret : returns (get_sensitive_fields scenario "userinfo" None))
    by (eexists; reflexivity).
  split; [reflexivity |]. split; [exact Hret |].
  exact (proj1 (scan_returns_iff_every_test_returns scenario "userinfo" None
                  eq_refl) Hret "zip").
Defined.
